(** * classy-slack-notifier: filter engine, classifier fallback, orchestrator

    A shallow embedding of the decision core of the notifier
    (models.py, config.py, filters.py, llm_classifier.py, notifier.py,
    the event parsing of slack_listener.py and handle_message of main.py),
    followed by the properties of its specification and by further
    properties of the code.

    Python values the code inspects dynamically (YAML and JSON data) are
    an inductive type of objects; exceptions are values of an error
    monad; the libraries the code calls (requests, json, re, the
    builtins int and str, and lower on text outside ASCII) are the
    fields of an environment record, so every definition below computes
    once an environment is fixed. *)

From Stdlib Require Import ZArith List Bool Ascii Lia.
From Stdlib Require Import Floats.SpecFloat.
From stdpp Require Import base option list gmap strings pretty.

Local Open Scope Z_scope.

(** ** Exceptions and the error monad *)

Module Exn.

(** The exception classes the modelled code raises or names in an
    [except] clause.  The [Requests*] classes are those of the requests
    package. *)
Inductive exn : Set :=
| RequestsConnectionError
| RequestsConnectTimeout
| RequestsReadTimeout
| RequestsTimeout
| RequestsHTTPError
| RequestsTooManyRedirects
| RequestsChunkedEncodingError
| RequestsInvalidURL
| RequestsJSONDecodeError
| JSONDecodeError
| KeyError
| TypeError
| ValueError
| OverflowError
| AttributeError
| ReError
| RecursionError.

#[global] Instance exn_eq_dec : EqDecision exn.
Proof. solve_decision. Defined.

(** The classes of this enumeration an exception is an instance of: its
    own class first, then its ancestors.  ConnectTimeout derives from
    both ConnectionError and Timeout, ReadTimeout from Timeout,
    InvalidURL from ValueError, and both JSON decode errors from
    ValueError (the requests one also from json's). *)
Definition mro (e : exn) : list exn :=
  match e with
  | RequestsConnectTimeout =>
      [RequestsConnectTimeout; RequestsConnectionError; RequestsTimeout]
  | RequestsReadTimeout => [RequestsReadTimeout; RequestsTimeout]
  | RequestsInvalidURL => [RequestsInvalidURL; ValueError]
  | RequestsJSONDecodeError =>
      [RequestsJSONDecodeError; JSONDecodeError; ValueError]
  | JSONDecodeError => [JSONDecodeError; ValueError]
  | _ => [e]
  end.

(** [isinstance e classes]: does an [except (c1, ..., cn)] clause catch
    [e]? *)
Definition isinstance (e : exn) (classes : list exn) : bool :=
  existsb (fun c => bool_decide (c ∈ mro e)) classes.

(** The result of running a piece of Python: a value, or a raised
    exception. *)
Inductive outcome (A : Type) : Type :=
| Returns (a : A)
| Raises (e : exn).
Arguments Returns {A} a.
Arguments Raises {A} e.

Definition bind {A B} (m : outcome A) (k : A -> outcome B) : outcome B :=
  match m with
  | Returns a => k a
  | Raises e => Raises e
  end.

Definition returns {A} (m : outcome A) : Prop := exists a, m = Returns a.

End Exn.
Export Exn.

#[global] Instance outcome_ret : MRet outcome := @Returns.
#[global] Instance outcome_bind : MBind outcome :=
  fun A B k m => Exn.bind m k.

(** ** Text *)

Module Str.

(** A text is the sequence of the bytes of its UTF-8 encoding: an ASCII
    character is one byte, and a text occurs in another exactly when its
    bytes occur in the bytes of the other.  The case functions below are
    those of the ASCII letters. *)
Definition is_upper (c : ascii) : bool :=
  let n := Ascii.N_of_ascii c in (65 <=? n)%N && (n <=? 90)%N.
Definition is_lower (c : ascii) : bool :=
  let n := Ascii.N_of_ascii c in (97 <=? n)%N && (n <=? 122)%N.

Definition lower_char (c : ascii) : ascii :=
  if is_upper c then Ascii.ascii_of_N (Ascii.N_of_ascii c + 32) else c.
Definition upper_char (c : ascii) : ascii :=
  if is_lower c then Ascii.ascii_of_N (Ascii.N_of_ascii c - 32) else c.

(** Is every character of [s] in the ASCII range? *)
Fixpoint is_ascii (s : string) : bool :=
  match s with
  | EmptyString => true
  | String c s' => (Ascii.N_of_ascii c <? 128)%N && is_ascii s'
  end.

(** [s.lower()] for a text of ASCII characters: the letters A to Z are
    mapped to a to z. *)
Fixpoint lower (s : string) : string :=
  match s with
  | EmptyString => EmptyString
  | String c s' => String (lower_char c) (lower s')
  end.



(** [s.startswith(p)] *)
Fixpoint startswith (p s : string) : bool :=
  match p, s with
  | EmptyString, _ => true
  | String a p', String b s' => bool_decide (a = b) && startswith p' s'
  | String _ _, EmptyString => false
  end.

(** [needle in hay] *)
Fixpoint contains (needle hay : string) : bool :=
  startswith needle hay ||
  match hay with
  | EmptyString => false
  | String _ hay' => contains needle hay'
  end.

(** [s[n:]] *)
Fixpoint drop (n : nat) (s : string) : string :=
  match n, s with
  | O, _ => s
  | S n', String _ s' => drop n' s'
  | S _, EmptyString => EmptyString
  end.

(** [s[:n]] *)
Fixpoint take (n : nat) (s : string) : string :=
  match n, s with
  | S n', String c s' => String c (take n' s')
  | _, _ => EmptyString
  end.

(** The newline character, as a one-character text. *)
Definition nl : string := String (Ascii.ascii_of_nat 10) EmptyString.

(** The double-quote character, as a one-character text. *)
Definition dquote : string := String (Ascii.ascii_of_nat 34) EmptyString.

End Str.

(** ** Python objects *)

(** The values YAML and JSON decoding produce.  Mappings keep their
    entries in order. *)
#[warnings="-register-all"]
Inductive pyobj : Type :=
| PNone
| PBool (b : bool)
| PInt (z : Z)
| PFloat (f : spec_float)
| PStr (s : string)
| PList (l : list pyobj)
| PDict (d : list (pyobj * pyobj)).

Module Py.

(** Lookup of a text key in a mapping's entries: only a text key with
    the same characters is equal to it. *)
Fixpoint dict_get (k : string) (d : list (pyobj * pyobj)) : option pyobj :=
  match d with
  | [] => None
  | (PStr k', v) :: d' => if bool_decide (k' = k) then Some v else dict_get k d'
  | _ :: d' => dict_get k d'
  end.

(** [obj[k]] for a text key [k]: KeyError on a mapping without the key,
    TypeError on a list or text (indices must be integers) and on the
    objects that are not subscriptable. *)
Definition getitem (obj : pyobj) (k : string) : outcome pyobj :=
  match obj with
  | PDict d =>
      match dict_get k d with
      | Some v => Returns v
      | None => Raises KeyError
      end
  | _ => Raises TypeError
  end.

(** [int(f)] for a float: truncation toward zero; OverflowError on an
    infinity, ValueError on a NaN. *)
Definition int_of_float (f : spec_float) : outcome Z :=
  match f with
  | S754_zero _ => Returns 0
  | S754_infinity _ => Raises OverflowError
  | S754_nan => Raises ValueError
  | S754_finite s m e =>
      let v := if 0 <=? e then Z.pos m * 2 ^ e else Z.pos m / 2 ^ (- e) in
      Returns (if s then - v else v)
  end.

End Py.

(** ** models.py *)

Inductive FilterAction : Set := SKIP | CLASSIFY | FORCE_NOTIFY.

#[global] Instance FilterAction_eq_dec : EqDecision FilterAction.
Proof. solve_decision. Defined.

(** The [value] of each member. *)
Definition FilterAction_value (a : FilterAction) : string :=
  match a with
  | SKIP => "skip"
  | CLASSIFY => "classify"
  | FORCE_NOTIFY => "force_notify"
  end.

Definition FilterAction_members : list FilterAction :=
  [SKIP; CLASSIFY; FORCE_NOTIFY].

Record SlackMessage : Type := {
  channel : string;
  channel_id : string;
  sender : string;
  sender_id : string;
  text : string;
  thread_ts : option string;
  is_dm : bool;
  is_mention : bool;
  is_bot : bool
}.

Record Classification : Type := {
  urgency : Z;
  reason : string
}.

Record FilterResult : Type := {
  action : FilterAction;
  rule : string
}.

(** ** config.py *)

(** [ollama_timeout] is an int or a float. *)
Inductive number : Type :=
| NInt (z : Z)
| NFloat (f : spec_float).

(** [n <= 0]; a comparison with a NaN is false. *)
Definition number_le_zero (n : number) : bool :=
  match n with
  | NInt z => z <=? 0
  | NFloat f => SFleb f (S754_zero false)
  end.

(** One element of [Config.keywords].  The code reads two keys of such a
    mapping, and this record is the mapping seen through them:
    [kw_pattern] is the value under "pattern" ([None] when the key is
    absent), which can be any YAML value; [kw_action] is the value under
    "action" ([None] when absent), a FilterAction since load_config
    passes every action it finds through _parse_action. *)
Record KeywordEntry : Type := {
  kw_pattern : option pyobj;
  kw_action : option FilterAction
}.

Definition DEFAULT_SYSTEM_PROMPT : string :=
  "You are a Slack notification triage assistant. Classify the urgency of the
following message on a scale of 1-5:

1 - Noise: automated messages, routine updates, social chatter
2 - Low: informational, no action needed soon
3 - Medium: relevant to your work, may need attention within hours
4 - High: needs your attention soon, action required
5 - Critical: immediate action required, outage, security incident, or direct request for urgent help

Respond with a JSON object containing " +:+ Str.dquote +:+ "urgency"
  +:+ Str.dquote +:+ " (integer 1-5) and " +:+ Str.dquote +:+ "reason"
  +:+ Str.dquote +:+ " (brief explanation).
".

Definition DEFAULT_RULES : gmap string FilterAction :=
  <["self" := SKIP]> (<["bots" := SKIP]> (<["mentions" := FORCE_NOTIFY]>
    (<["dms" := FORCE_NOTIFY]> (<["default" := CLASSIFY]> ∅)))).

Definition VALID_RULE_KEYS : list string :=
  ["self"; "bots"; "mentions"; "dms"; "default"].

Record Config : Type := {
  model : string;
  ollama_url : string;
  ollama_timeout : number;
  urgency_threshold : Z;
  system_prompt : string;
  rules : gmap string FilterAction;
  channels : gmap string FilterAction;
  keywords : list KeywordEntry;
  notification_timeout : Z
}.

(** [Config()] *)
Definition default_config : Config := {|
  model := "llama3.2:3b";
  ollama_url := "http://localhost:11434";
  ollama_timeout := NInt 3;
  urgency_threshold := 3;
  system_prompt := DEFAULT_SYSTEM_PROMPT;
  rules := DEFAULT_RULES;
  channels := ∅;
  keywords := [];
  notification_timeout := 10
|}.

(** _parse_action: [FilterAction(value)] is the member whose value is
    the given text; for any other object the ValueError of the enum is
    raised again with a message. *)
Definition _parse_action (value : pyobj) : outcome FilterAction :=
  match value with
  | PStr s =>
      match find (fun a => bool_decide (FilterAction_value a = s)) FilterAction_members with
      | Some a => Returns a
      | None => Raises ValueError
      end
  | _ => Raises ValueError
  end.

(** The "rules" part of load_config: every entry of the raw mapping whose
    key is one of the five rule names replaces that rule; entries under
    other keys are skipped with a warning. *)
Fixpoint load_rules (raw_rules : list (pyobj * pyobj))
    (rules : gmap string FilterAction) : outcome (gmap string FilterAction) :=
  match raw_rules with
  | [] => Returns rules
  | (key, value) :: rest =>
      match key with
      | PStr k =>
          if bool_decide (k ∈ VALID_RULE_KEYS) then
            a ← _parse_action value;
            load_rules rest (<[k := a]> rules)
          else load_rules rest rules
      | _ => load_rules rest rules
      end
  end.

Definition load_config_rules (raw : list (pyobj * pyobj))
    (rules : gmap string FilterAction) : outcome (gmap string FilterAction) :=
  match Py.dict_get "rules" raw with
  | None => Returns rules
  | Some (PDict raw_rules) => load_rules raw_rules rules
  | Some _ => Raises ValueError
  end.

(** The "keywords" part of load_config: each entry must be a mapping; an
    action it carries is parsed; the entry is appended as it is
    otherwise. *)
Definition load_keyword (entry : pyobj) : outcome KeywordEntry :=
  match entry with
  | PDict d =>
      match Py.dict_get "action" d with
      | Some v =>
          parsed_action ← _parse_action v;
          Returns {| kw_pattern := Py.dict_get "pattern" d;
                     kw_action := Some parsed_action |}
      | None =>
          Returns {| kw_pattern := Py.dict_get "pattern" d; kw_action := None |}
      end
  | _ => Raises ValueError
  end.

Fixpoint load_keywords (raw_keywords : list pyobj) (acc : list KeywordEntry)
    : outcome (list KeywordEntry) :=
  match raw_keywords with
  | [] => Returns acc
  | entry :: rest =>
      kw ← load_keyword entry;
      load_keywords rest (acc ++ [kw])
  end.

Definition load_config_keywords (raw : list (pyobj * pyobj))
    (acc : list KeywordEntry) : outcome (list KeywordEntry) :=
  match Py.dict_get "keywords" raw with
  | None => Returns acc
  | Some (PList raw_keywords) => load_keywords raw_keywords acc
  | Some _ => Raises ValueError
  end.

(** The keyword loop of _validate_config. *)
Fixpoint validate_keywords (kws : list KeywordEntry) : outcome unit :=
  match kws with
  | [] => Returns tt
  | kw :: rest =>
      match kw_pattern kw with
      | None => Raises ValueError
      | Some pattern =>
          match kw_action kw with
          | None => Raises ValueError
          | Some _ =>
              match pattern with
              | PStr _ => validate_keywords rest
              | _ => Raises ValueError
              end
          end
      end
  end.

(** _validate_config.  The two isinstance tests hold by the types of the
    fields of [Config]; the range tests and the keyword loop remain. *)
Definition _validate_config (config : Config) : outcome unit :=
  if negb ((1 <=? urgency_threshold config) && (urgency_threshold config <=? 5))
  then Raises ValueError
  else if number_le_zero (ollama_timeout config) then Raises ValueError
  else validate_keywords (keywords config).

(** The "channels" part of load_config.  A key that is not a text is
    parsed like the others and left out of the map: pre_filter looks up
    the channel of a message, a text, which no such key equals. *)
Fixpoint load_channels (raw_channels : list (pyobj * pyobj))
    (chans : gmap string FilterAction) : outcome (gmap string FilterAction) :=
  match raw_channels with
  | [] => Returns chans
  | (channel_name, value) :: rest =>
      a ← _parse_action value;
      load_channels rest
        (match channel_name with
         | PStr k => <[k := a]> chans
         | _ => chans
         end)
  end.

Definition load_config_channels (raw : list (pyobj * pyobj))
    (chans : gmap string FilterAction) : outcome (gmap string FilterAction) :=
  match Py.dict_get "channels" raw with
  | None => Returns chans
  | Some (PDict raw_channels) => load_channels raw_channels chans
  | Some _ => Raises ValueError
  end.

(** The two scalar fields validation tests with isinstance.  load_config
    stores the raw value and _validate_config raises ValueError later when
    it is not an int (for the threshold) or not an int or a float (for the
    timeout); here the value is read at its type, with the same
    ValueError.  A bool is an int, worth 0 or 1. *)
Definition read_int (fallback : Z) (v : option pyobj) : outcome Z :=
  match v with
  | None => Returns fallback
  | Some (PInt z) => Returns z
  | Some (PBool b) => Returns (if b then 1 else 0)
  | Some _ => Raises ValueError
  end.

Definition read_number (fallback : number) (v : option pyobj) : outcome number :=
  match v with
  | None => Returns fallback
  | Some (PInt z) => Returns (NInt z)
  | Some (PBool b) => Returns (NInt (if b then 1 else 0))
  | Some (PFloat f) => Returns (NFloat f)
  | Some _ => Raises ValueError
  end.

(** ** The libraries the code calls *)

Inductive re_flag : Set := NOFLAG | IGNORECASE.

(** The body of the chat request, as classify builds it. *)
Record ChatRequest : Type := {
  req_model : string;
  req_messages : list (string * string);   (* role, content *)
  req_format : pyobj;
  req_stream : bool
}.

(** What requests.post returned: the status and the text of the body. *)
Record Response : Type := {
  status_code : Z;
  resp_text : string
}.

Record Env : Type := {
  (** [re.search(pattern, string, flags)], as the truth value of its
      result; [Raises ReError] when the pattern does not compile. *)
  re_search : string -> string -> re_flag -> outcome bool;
  (** [requests.post(url, json=body, timeout=t)] *)
  requests_post : string -> ChatRequest -> number -> outcome Response;
  (** [json.loads(s)] on a text: the value, or the exception it raises,
      JSONDecodeError when the text is not JSON and RecursionError when
      it is nested too deeply. *)
  json_decode : string -> outcome pyobj;
  (** [int(s)] on a text; [None] for a ValueError. *)
  int_of_text : string -> option Z;
  (** [str(obj)] on a value YAML or JSON decoding produced; it returns
      a text for each of them. *)
  str_of : pyobj -> string;
  (** [s.lower()] for a text with characters outside ASCII: the small
      form Unicode gives each character, which can depend on its place
      in the word and can differ in length from the capital form. *)
  str_lower : string -> string
}.

(** [s.lower()]: on a text of ASCII characters the letters A to Z
    become a to z; any other text is lowered by the environment. *)
Definition py_lower (env : Env) (s : string) : string :=
  if Str.is_ascii s then Str.lower s else str_lower env s.

(** ** filters.py *)

(** [config.rules[name]] *)
Definition rules_getitem (config : Config) (name : string) : outcome FilterAction :=
  match rules config !! name with
  | Some a => Returns a
  | None => Raises KeyError
  end.

(** [kw["pattern"]] and [kw["action"]] *)
Definition kw_getitem_pattern (kw : KeywordEntry) : outcome pyobj :=
  match kw_pattern kw with
  | Some p => Returns p
  | None => Raises KeyError
  end.
Definition kw_getitem_action (kw : KeywordEntry) : outcome FilterAction :=
  match kw_action kw with
  | Some a => Returns a
  | None => Raises KeyError
  end.

(** The test the keyword loop makes on one entry; an object that is not
    a text has no [startswith]. *)
Definition keyword_matches (env : Env) (kw : KeywordEntry) (msg_text : string)
    : outcome bool :=
  pattern ← kw_getitem_pattern kw;
  match pattern with
  | PStr pattern =>
      if Str.startswith "regex:" pattern then
        let regex := Str.drop 6 pattern in
        re_search env regex msg_text IGNORECASE
      else
        Returns (Str.contains (py_lower env pattern) (py_lower env msg_text))
  | _ => Raises AttributeError
  end.

(** The result an entry that matched returns from pre_filter. *)
Definition keyword_result (kw : KeywordEntry) : outcome FilterResult :=
  pattern ← kw_getitem_pattern kw;
  a ← kw_getitem_action kw;
  match pattern with
  | PStr pattern => Returns {| action := a; rule := "keyword:" +:+ pattern |}
  | _ => Raises AttributeError
  end.

(** The keyword loop: [Some] result when an entry returned from the
    function, [None] when the loop ran to its end. *)
Fixpoint keyword_loop (env : Env) (kws : list KeywordEntry) (msg_text : string)
    : outcome (option FilterResult) :=
  match kws with
  | [] => Returns None
  | kw :: rest =>
      m ← keyword_matches env kw msg_text;
      if m : bool then r ← keyword_result kw; Returns (Some r)
      else keyword_loop env rest msg_text
  end.

(** An entry the loop passes over: its test ran and was false. *)
Definition no_match (env : Env) (msg_text : string) (kw : KeywordEntry) : Prop :=
  keyword_matches env kw msg_text = Returns false.

(** An entry that passed validation: a text pattern and an action. *)
Definition well_formed_keyword (kw : KeywordEntry) : Prop :=
  exists p a, kw_pattern kw = Some (PStr p) /\ kw_action kw = Some a.

(** The search the loop makes for a regex-tagged entry does not raise. *)
Definition regex_compiles (env : Env) (msg_text : string) (kw : KeywordEntry) : Prop :=
  forall p, kw_pattern kw = Some (PStr p) -> Str.startswith "regex:" p = true ->
    returns (re_search env (Str.drop 6 p) msg_text IGNORECASE).

Definition pre_filter (env : Env) (msg : SlackMessage) (config : Config)
    (bot_user_id : string) : outcome FilterResult :=
  (* 1. Self *)
  if bool_decide (sender_id msg = bot_user_id) then
    a ← rules_getitem config "self";
    Returns {| action := a; rule := "self" |}
  (* 2. Bots *)
  else if is_bot msg then
    a ← rules_getitem config "bots";
    Returns {| action := a; rule := "bots" |}
  else
    (* 3. Keywords *)
    found ← keyword_loop env (keywords config) (text msg);
    match found with
    | Some r => Returns r
    | None =>
        (* 4. Mentions *)
        if is_mention msg then
          a ← rules_getitem config "mentions";
          Returns {| action := a; rule := "mentions" |}
        (* 5. DMs *)
        else if is_dm msg then
          a ← rules_getitem config "dms";
          Returns {| action := a; rule := "dms" |}
        else
          (* 6. Channels *)
          match channels config !! channel msg with
          | Some a => Returns {| action := a; rule := "channel:" +:+ channel msg |}
          | None =>
              (* 7. Default *)
              a ← rules_getitem config "default";
              Returns {| action := a; rule := "default" |}
          end
    end.

(** ** llm_classifier.py *)

Definition RESPONSE_SCHEMA : pyobj :=
  PDict [
    (PStr "type", PStr "object");
    (PStr "properties",
       PDict [ (PStr "urgency", PDict [(PStr "type", PStr "integer")]);
               (PStr "reason", PDict [(PStr "type", PStr "string")]) ]);
    (PStr "required", PList [PStr "urgency"; PStr "reason"])
  ].

Definition _build_user_content (msg : SlackMessage) : string :=
  "Channel: " +:+ channel msg +:+ Str.nl +:+
  "Sender: " +:+ sender msg +:+ Str.nl +:+
  "DM: " +:+ (if is_dm msg then "yes" else "no") +:+ Str.nl +:+
  "Message: " +:+ text msg.

(** _fallback.  Its second argument is only written to the log, and is
    left out. *)
Definition _fallback (config : Config) : Classification :=
  {| urgency := urgency_threshold config;
     reason := "LLM unavailable — notifying as precaution" |}.

(** [resp.raise_for_status()]: HTTPError on a 4xx or 5xx status. *)
Definition raise_for_status (resp : Response) : outcome unit :=
  if (400 <=? status_code resp) && (status_code resp <? 600)
  then Raises RequestsHTTPError
  else Returns tt.

(** [resp.json()]: the body is decoded, and a JSONDecodeError is raised
    again as the one of requests; any other exception of the decoder
    passes. *)
Definition response_json (env : Env) (resp : Response) : outcome pyobj :=
  match json_decode env (resp_text resp) with
  | Returns v => Returns v
  | Raises e =>
      Raises (if bool_decide (e = JSONDecodeError) then RequestsJSONDecodeError
              else e)
  end.

(** [json.loads(obj)]: TypeError unless [obj] is a text. *)
Definition json_loads (env : Env) (obj : pyobj) : outcome pyobj :=
  match obj with
  | PStr s => json_decode env s
  | _ => Raises TypeError
  end.

(** [int(obj)] *)
Definition py_int (env : Env) (obj : pyobj) : outcome Z :=
  match obj with
  | PInt z => Returns z
  | PBool b => Returns (if b then 1 else 0)
  | PFloat f => Py.int_of_float f
  | PStr s =>
      match int_of_text env s with
      | Some z => Returns z
      | None => Raises ValueError
      end
  | PNone | PList _ | PDict _ => Raises TypeError
  end.

(** [str(obj)] *)
Definition py_str (env : Env) (obj : pyobj) : string :=
  match obj with
  | PStr s => s
  | _ => str_of env obj
  end.

(** ** config.py: load_config *)

(** The notification timeout of a file.  load_config stores the value
    unchecked, and an int (a bool is one) is stored as it is.  The record
    keeps the field at the type the dataclass declares, int: for a value
    of another type, which load_config stores all the same, the record
    keeps the default.  Whether a file is accepted does not depend on the
    field. *)
Definition read_unchecked_int (fallback : Z) (v : option pyobj) : Z :=
  match v with
  | Some (PInt z) => z
  | Some (PBool b) => if b then 1 else 0
  | _ => fallback
  end.

(** [str(raw[key])] when the file has the key. *)
Definition read_text (env : Env) (fallback : string) (v : option pyobj) : string :=
  match v with
  | Some obj => py_str env obj
  | None => fallback
  end.

(** load_config on the value yaml.safe_load returned: an empty file
    counts as an empty mapping, anything but a mapping is rejected, the
    scalar fields are read, rules are merged into the defaults, channels
    and keywords are collected, and the result is validated. *)
Definition load_config_structured (env : Env) (raw : pyobj) : outcome Config :=
  let raw := match raw with PNone => PDict [] | _ => raw end in
  match raw with
  | PDict d =>
      timeout ← read_number (ollama_timeout default_config)
                  (Py.dict_get "ollama_timeout" d);
      threshold ← read_int (urgency_threshold default_config)
                    (Py.dict_get "urgency_threshold" d);
      rs ← load_config_rules d DEFAULT_RULES;
      chans ← load_config_channels d ∅;
      kws ← load_config_keywords d [];
      let config := {|
        model := read_text env (model default_config) (Py.dict_get "model" d);
        ollama_url :=
          read_text env (ollama_url default_config) (Py.dict_get "ollama_url" d);
        ollama_timeout := timeout;
        urgency_threshold := threshold;
        system_prompt :=
          read_text env (system_prompt default_config)
            (Py.dict_get "system_prompt" d);
        rules := rs;
        channels := chans;
        keywords := kws;
        notification_timeout :=
          read_unchecked_int (notification_timeout default_config)
            (Py.dict_get "notification_timeout" d)
      |} in
      _validate_config config;;
      Returns config
  | _ => Raises ValueError
  end.

(** What load_config asks of the value under each key of the file.
    [v] is the result of the lookup, [None] when the key is absent. *)

(** "ollama_timeout": an int (a bool is one, worth 0 or 1) or a float,
    for which [<= 0] is false: a positive number, or a NaN. *)
Definition timeout_accepted (v : option pyobj) : Prop :=
  match v with
  | None => True
  | Some (PInt z) => 0 < z
  | Some (PBool b) => b = true
  | Some (PFloat f) => SFleb f (S754_zero false) = false
  | Some _ => False
  end.

(** "urgency_threshold": an int (a bool is one) from 1 to 5; a float,
    3.0 say, is not an int. *)
Definition threshold_accepted (v : option pyobj) : Prop :=
  match v with
  | None => True
  | Some (PInt z) => 1 <= z <= 5
  | Some (PBool b) => b = true
  | Some _ => False
  end.

(** "rules": a mapping in which every entry under one of the five rule
    names has an action that parses. *)
Definition rules_accepted (v : option pyobj) : Prop :=
  match v with
  | None => True
  | Some (PDict raw_rules) =>
      forall k value, (PStr k, value) ∈ raw_rules -> k ∈ VALID_RULE_KEYS ->
        returns (_parse_action value)
  | Some _ => False
  end.

(** "channels": a mapping in which every entry has an action that
    parses. *)
Definition channels_accepted (v : option pyobj) : Prop :=
  match v with
  | None => True
  | Some (PDict raw_channels) =>
      forall key value, (key, value) ∈ raw_channels -> returns (_parse_action value)
  | Some _ => False
  end.

(** One entry of "keywords": a mapping with a text under "pattern" and,
    under "action", an action that parses. *)
Definition keyword_accepted (entry : pyobj) : Prop :=
  exists d p value,
    entry = PDict d /\ Py.dict_get "pattern" d = Some (PStr p) /\
    Py.dict_get "action" d = Some value /\ returns (_parse_action value).

(** "keywords": a list of such entries. *)
Definition keywords_accepted (v : option pyobj) : Prop :=
  match v with
  | None => True
  | Some (PList raw_keywords) => Forall keyword_accepted raw_keywords
  | Some _ => False
  end.

Definition chat_request (msg : SlackMessage) (config : Config) : ChatRequest :=
  {| req_model := model config;
     req_messages := [ ("system", system_prompt config);
                       ("user", _build_user_content msg) ];
     req_format := RESPONSE_SCHEMA;
     req_stream := false |}.

(** The [try] block of classify: the raw urgency and the reason. *)
Definition classify_try (env : Env) (msg : SlackMessage) (config : Config)
    : outcome (Z * string) :=
  resp ← requests_post env (ollama_url config +:+ "/api/chat")
           (chat_request msg config) (ollama_timeout config);
  raise_for_status resp;;
  data ← response_json env resp;
  message ← Py.getitem data "message";
  raw_content ← Py.getitem message "content";
  content ← json_loads env raw_content;
  raw_urgency ← Py.getitem content "urgency";
  urgency ← py_int env raw_urgency;
  raw_reason ← Py.getitem content "reason";
  Returns (urgency, py_str env raw_reason).

(** The classes of the two [except] clauses of classify. *)
Definition except_network : list exn := [RequestsConnectionError; RequestsTimeout].
Definition except_parsing : list exn :=
  [KeyError; TypeError; ValueError; JSONDecodeError].

Definition classify (env : Env) (msg : SlackMessage) (config : Config)
    : outcome Classification :=
  match classify_try env msg config with
  | Raises exc =>
      if isinstance exc except_network then Returns (_fallback config)
      else if isinstance exc except_parsing then Returns (_fallback config)
      else Raises exc
  | Returns (urgency, reason) =>
      (* Clamp urgency into the valid 1-5 range. *)
      let urgency := Z.max 1 (Z.min 5 urgency) in
      Returns {| urgency := urgency; reason := reason |}
  end.

(** ** notifier.py *)

Definition _urgency_level (urgency : option Z) : string :=
  match urgency with
  | None => "normal"
  | Some urgency =>
      if urgency <=? 2 then "low"
      else if urgency <=? 3 then "normal"
      else "critical"
  end.

(** notify, as the command line it hands to subprocess.run. *)
Definition notify (msg : SlackMessage) (reason : string) (urgency : option Z)
    (config : Config) : list string :=
  let title :=
    if is_dm msg then "Slack: DM from @" +:+ sender msg
    else "Slack: #" +:+ channel msg in
  let body := Str.take 200 (text msg) +:+ Str.nl +:+ Str.nl +:+ reason in
  let level := _urgency_level urgency in
  let ms := notification_timeout config * 1000 in
  [ "notify-send"; "--urgency=" +:+ level; "--expire-time=" +:+ pretty ms;
    title; body ].

(** ** main.py *)

(** handle_message on the result of listener.parse_event; the value is
    the list of notification commands it ran. *)
Definition handle_message (env : Env) (parsed : option SlackMessage)
    (config : Config) (bot_user_id : string) : outcome (list (list string)) :=
  match parsed with
  | None => Returns []
  | Some msg =>
      result ← pre_filter env msg config bot_user_id;
      if bool_decide (action result = SKIP) then Returns []
      else if bool_decide (action result = FORCE_NOTIFY) then
        Returns [notify msg ("Matched rule: " +:+ rule result) None config]
      else
        (* CLASSIFY path *)
        classification ← classify env msg config;
        if urgency_threshold config <=? urgency classification then
          Returns [notify msg (reason classification)
                     (Some (urgency classification)) config]
        else Returns []
  end.

(** ** slack_listener.py *)

(** An event is the mapping Slack delivers, seen through the keys
    parse_event reads; under each of them Slack sends a text.  [event.get(k)]
    is the lookup and [event.get(k, d)] the lookup with a default. *)
Definition _IGNORED_SUBTYPES : gset string :=
  {[ "channel_join"; "channel_leave"; "channel_topic"; "channel_purpose";
     "channel_name"; "channel_archive"; "channel_unarchive";
     "group_join"; "group_leave"; "group_topic"; "group_purpose";
     "group_name"; "group_archive"; "group_unarchive" ]}.

(** The truth value of the result of [event.get(k)]: [None] and the empty
    text are false. *)
Definition truthy (v : option string) : bool :=
  match v with
  | Some (String _ _) => true
  | Some EmptyString | None => false
  end.

(** [v or fallback], for a text [fallback]. *)
Definition or_else (v : option string) (fallback : string) : string :=
  match v with
  | Some (String c s) => String c s
  | Some EmptyString | None => fallback
  end.

(** The answer of users.info under "user", seen through the keys
    _resolve_user reads; [user_profile] is [None] when the user has no
    "profile" key, and the code then reads an empty profile. *)
Record UserProfile : Type := {
  profile_display_name : option string;
  profile_real_name : option string
}.

Record UserInfo : Type := {
  user_profile : option UserProfile;
  user_real_name : option string
}.

(** The two calls made on the web client.  [conversations_info c] is the
    call followed by [info["channel"]["name"]]: the name, [Returns None]
    when one of the two keys is missing (a KeyError), or the exception the
    call raised.  [users_info u] is the call followed by [info["user"]]. *)
Record SlackClient : Type := {
  conversations_info : string -> outcome (option string);
  users_info : string -> outcome (option UserInfo)
}.

(** The state of a SlackListener: the identity of the bot, the deque of
    event identifiers (oldest first) and the two name caches. *)
Record SlackListener : Type := {
  _bot_user_id : string;
  _seen_events : list string;
  _channel_cache : gmap string string;
  _user_cache : gmap string string
}.

(** The [maxlen] of the deque of seen events. *)
Definition SEEN_MAXLEN : nat := 1000.

(** [d.append(x)] on a deque bounded by [maxlen]: the element is added on
    the right, and elements are discarded on the left to keep at most
    [maxlen] of them. *)
Definition deque_append (maxlen : nat) (x : string) (d : list string) : list string :=
  let d' := d ++ [x] in
  drop (length d' - maxlen) d'.

Definition set_seen_events (d : list string) (self : SlackListener) : SlackListener :=
  {| _bot_user_id := _bot_user_id self; _seen_events := d;
     _channel_cache := _channel_cache self; _user_cache := _user_cache self |}.

Definition cache_channel (channel_id name : string) (self : SlackListener)
    : SlackListener :=
  {| _bot_user_id := _bot_user_id self; _seen_events := _seen_events self;
     _channel_cache := <[channel_id := name]> (_channel_cache self);
     _user_cache := _user_cache self |}.

Definition cache_user (user_id name : string) (self : SlackListener)
    : SlackListener :=
  {| _bot_user_id := _bot_user_id self; _seen_events := _seen_events self;
     _channel_cache := _channel_cache self;
     _user_cache := <[user_id := name]> (_user_cache self) |}.

(** [channel_type in ("im", "mpim")] *)
Definition is_dm_type (channel_type : string) : bool :=
  bool_decide (channel_type ∈ ["im"; "mpim"]).

Definition _resolve_channel (client : SlackClient) (self : SlackListener)
    (channel_id : string) (event : gmap string string) : string * SlackListener :=
  match _channel_cache self !! channel_id with
  | Some name => (name, self)
  | None =>
      (* DMs don't have a meaningful name; short-circuit. *)
      let channel_type := default EmptyString (event !! "channel_type") in
      if is_dm_type channel_type then ("DM", cache_channel channel_id "DM" self)
      else
        let name :=
          match conversations_info client channel_id with
          | Returns (Some name) => name
          | Returns None | Raises _ => channel_id     (* except Exception *)
          end in
        (name, cache_channel channel_id name self)
  end.

Definition _resolve_user (client : SlackClient) (self : SlackListener)
    (user_id : string) : string * SlackListener :=
  match _user_cache self !! user_id with
  | Some name => (name, self)
  | None =>
      let name :=
        match users_info client user_id with
        | Returns (Some user) =>
            let profile :=
              default {| profile_display_name := None; profile_real_name := None |}
                (user_profile user) in
            or_else (profile_display_name profile)
              (or_else (profile_real_name profile)
                 (or_else (user_real_name user) user_id))
        | Returns None | Raises _ => user_id          (* except Exception *)
        end in
      (name, cache_user user_id name self)
  end.

(** [event.get("bot_id") is not None or subtype == "bot_message"] *)
Definition from_bot (event : gmap string string) : bool :=
  bool_decide (is_Some (event !! "bot_id")) ||
  bool_decide (event !! "subtype" = Some "bot_message").

(** [event.get("client_msg_id") or event.get("ts")] *)
Definition event_id_of (event : gmap string string) : option string :=
  if truthy (event !! "client_msg_id") then event !! "client_msg_id"
  else event !! "ts".

(** [subtype is not None and subtype in _IGNORED_SUBTYPES] *)
Definition ignored_subtype (event : gmap string string) : bool :=
  match event !! "subtype" with
  | Some subtype => bool_decide (subtype ∈ _IGNORED_SUBTYPES)
  | None => false
  end.

(** The sender of an event: its "user" when it has one; for an event
    without a user that comes from a bot, its "bot_id", or "unknown_bot"
    when that key is absent; [None] when the event is dropped for lack of
    a sender. *)
Definition sender_id_of (event : gmap string string) : option string :=
  if truthy (event !! "user") then event !! "user"
  else if from_bot event then Some (default "unknown_bot" (event !! "bot_id"))
  else None.

(** The SlackMessage parse_event builds once the names are resolved. *)
Definition build_message (bot_user_id : string) (event : gmap string string)
    (channel_name channel_id sender_name sender_id : string) : SlackMessage :=
  let text := default EmptyString (event !! "text") in
  let channel_type := default EmptyString (event !! "channel_type") in
  {| channel := channel_name;
     channel_id := channel_id;
     sender := sender_name;
     sender_id := sender_id;
     text := text;
     thread_ts := event !! "thread_ts";
     is_dm := is_dm_type channel_type;
     is_mention := Str.contains ("<@" +:+ bot_user_id +:+ ">") text;
     is_bot := from_bot event |}.

(** parse_event: the message, or [None] when the event is dropped, and the
    listener after the call. *)
Definition parse_event (client : SlackClient) (self : SlackListener)
    (event : gmap string string) : option SlackMessage * SlackListener :=
  (* deduplication *)
  match event_id_of event with
  | None => (None, self)
  | Some event_id =>
      if bool_decide (event_id ∈ _seen_events self) then (None, self)
      else
        let self :=
          set_seen_events (deque_append SEEN_MAXLEN event_id (_seen_events self)) self in
        (* filter irrelevant subtypes *)
        if ignored_subtype event then (None, self)
        else
          (* required fields *)
          match event !! "channel" with
          | None | Some EmptyString => (None, self)
          | Some channel_id =>
              match sender_id_of event with
              | None => (None, self)
              | Some sender_id =>
                  (* resolve names (cached) *)
                  let '(channel_name, self) :=
                    _resolve_channel client self channel_id event in
                  let '(sender_name, self) := _resolve_user client self sender_id in
                  (* build SlackMessage *)
                  (Some (build_message (_bot_user_id self) event
                           channel_name channel_id sender_name sender_id),
                   self)
              end
          end
  end.

(** handle_message of main.py as a whole: the event is parsed by the
    listener, and the message goes through the pipeline.  The value is
    the outcome of the pipeline and the listener after the call. *)
Definition handle_event (env : Env) (client : SlackClient) (listener : SlackListener)
    (event : gmap string string) (config : Config) (bot_user_id : string)
    : outcome (list (list string)) * SlackListener :=
  let '(msg, listener) := parse_event client listener event in
  (handle_message env msg config bot_user_id, listener).

(** ** A small regular-expression engine and concrete environments

    The properties below hold for every environment.  To run the
    definitions on concrete inputs, this section supplies one: an engine
    for a fragment of the pattern syntax (literal characters, [.], and
    sets [[...]] of characters and ranges), a JSON decoder given by a
    table, and a network that always gives the same answer.  A pattern
    outside the fragment is refused by this engine; a set that is never
    closed is refused by it as by Python's. *)

Module Fragment.

Inductive atom : Type :=
| Lit (c : ascii)
| Dot
| CharSet (items : list (ascii * ascii)).

(** The characters with a meaning of their own outside a set, apart
    from [.] and [[]. *)
Definition special (c : ascii) : bool :=
  bool_decide (c ∈ ["\"; "^"; "$"; "*"; "+"; "?"; "{"; "}"; "("; ")"; "|"; "]"]%char).

Definition char_le (a b : ascii) : bool :=
  (Ascii.N_of_ascii a <=? Ascii.N_of_ascii b)%N.

(** [compile_from s open]: the atoms of [s]; [open] holds the items
    read so far of a set whose [[] has been read. *)
Fixpoint compile_from (s : string) (open : option (list (ascii * ascii)))
    : option (list atom) :=
  match s, open with
  | EmptyString, None => Some []
  | EmptyString, Some _ => None          (* unterminated character set *)
  | String c rest, None =>
      if bool_decide (c = "["%char) then compile_from rest (Some [])
      else if bool_decide (c = "."%char) then cons Dot <$> compile_from rest None
      else if special c then None
      else cons (Lit c) <$> compile_from rest None
  | String c rest, Some items =>
      if bool_decide (c = "]"%char) then
        match items with
        | [] => None
        | _ => cons (CharSet (rev items)) <$> compile_from rest None
        end
      else if bool_decide (c = "\"%char) || bool_decide (c = "^"%char) then None
      else
        match rest with
        | String dash (String d rest') =>
            if bool_decide (dash = "-"%char) && negb (bool_decide (d = "]"%char)) then
              if char_le c d then compile_from rest' (Some ((c, d) :: items))
              else None                  (* bad character range *)
            else compile_from rest (Some ((c, c) :: items))
        | _ => compile_from rest (Some ((c, c) :: items))
        end
  end.

Definition compile (s : string) : option (list atom) := compile_from s None.

Definition atom_matches (a : atom) (c : ascii) : bool :=
  match a with
  | Lit x => bool_decide (x = c)
  | Dot => negb (bool_decide (c = Ascii.ascii_of_nat 10))
  | CharSet items => existsb (fun '(lo, hi) => char_le lo c && char_le c hi) items
  end.

(** With IGNORECASE a character matches when either of its cases does. *)
Definition atom_matches_flag (flag : re_flag) (a : atom) (c : ascii) : bool :=
  match flag with
  | NOFLAG => atom_matches a c
  | IGNORECASE =>
      atom_matches a (Str.lower_char c) || atom_matches a (Str.upper_char c)
  end.

Fixpoint match_here (flag : re_flag) (prog : list atom) (s : string) : bool :=
  match prog, s with
  | [], _ => true
  | a :: prog', String c s' => atom_matches_flag flag a c && match_here flag prog' s'
  | _ :: _, EmptyString => false
  end.

Fixpoint search_prog (flag : re_flag) (prog : list atom) (s : string) : bool :=
  match_here flag prog s ||
  match s with
  | EmptyString => false
  | String _ s' => search_prog flag prog s'
  end.

Definition search (pattern s : string) (flag : re_flag) : outcome bool :=
  match compile pattern with
  | Some prog => Returns (search_prog flag prog s)
  | None => Raises ReError
  end.

(** A decoder that knows the texts of a table. *)
Fixpoint decode_table (tbl : list (string * pyobj)) (s : string) : option pyobj :=
  match tbl with
  | [] => None
  | (k, v) :: tbl' => if bool_decide (k = s) then Some v else decode_table tbl' s
  end.

(** [lower] given by a table of the texts it knows; on any other text
    the ASCII letters are mapped. *)
Fixpoint lower_table (tbl : list (string * string)) (s : string) : string :=
  match tbl with
  | [] => Str.lower s
  | (k, v) :: tbl' => if bool_decide (k = s) then v else lower_table tbl' s
  end.

(** [int] on a text made of an optional sign and decimal digits. *)
Fixpoint digits_value (s : string) (acc : Z) : option Z :=
  match s with
  | EmptyString => Some acc
  | String c s' =>
      match Ascii.is_nat c with
      | Some d => digits_value s' (10 * acc + Z.of_nat d)
      | None => None
      end
  end.

Definition int_of_decimal (s : string) : option Z :=
  match s with
  | EmptyString => None
  | String c rest =>
      if bool_decide (c = "-"%char) then
        match rest with
        | EmptyString => None
        | _ => Z.opp <$> digits_value rest 0
        end
      else if bool_decide (c = "+"%char) then
        match rest with
        | EmptyString => None
        | _ => digits_value rest 0
        end
      else digits_value s 0
  end.

(** [str] on the scalars; containers and floats are abbreviated. *)
Definition str_of_scalar (obj : pyobj) : string :=
  match obj with
  | PNone => "None"
  | PBool b => if b then "True" else "False"
  | PInt z => pretty z
  | PStr s => s
  | PFloat _ | PList _ | PDict _ => "..."
  end.

(** An environment whose network call has the outcome [answer] and
    whose decoder is given by [tbl]. *)
Definition env_of (answer : outcome Response) (tbl : list (string * pyobj)) : Env :=
  {| re_search := search;
     requests_post := fun _ _ _ => answer;
     json_decode := fun s =>
       match decode_table tbl s with
       | Some v => Returns v
       | None => Raises JSONDecodeError
       end;
     int_of_text := int_of_decimal;
     str_of := str_of_scalar;
     str_lower := lower_table [] |}.

(** The network is down. *)
Definition env_refused : Env := env_of (Raises RequestsConnectionError) [].
Definition env_timeout : Env := env_of (Raises RequestsReadTimeout) [].

(** The service answers with a server error. *)
Definition env_http_500 : Env :=
  env_of (Returns {| status_code := 500; resp_text := "Internal Server Error" |}) [].

(** The service answers with the given urgency and reason, in the
    shape of an Ollama chat reply. *)
Definition env_reply (raw_urgency : pyobj) (raw_reason : string) : Env :=
  env_of (Returns {| status_code := 200; resp_text := "<chat reply>" |})
    [ ("<chat reply>",
       PDict [ (PStr "message",
                PDict [ (PStr "role", PStr "assistant");
                        (PStr "content", PStr "<content>") ]) ]);
      ("<content>",
       PDict [ (PStr "urgency", raw_urgency); (PStr "reason", PStr raw_reason) ]) ].

(** The service answers with a document nested so deeply that the
    decoder gives up. *)
Definition env_deeply_nested : Env :=
  {| re_search := search;
     requests_post := fun _ _ _ =>
       Returns {| status_code := 200; resp_text := "[[[[...]]]]" |};
     json_decode := fun _ => Raises RecursionError;
     int_of_text := int_of_decimal;
     str_of := str_of_scalar;
     str_lower := lower_table [] |}.


End Fragment.

(** A configuration file with one keyword, a regex whose character set
    is never closed, and the configuration loading makes of it. *)
Definition raw_unclosed_set : pyobj :=
  PDict [ (PStr "keywords",
           PList [ PDict [ (PStr "pattern", PStr "regex:P[0-1 incident");
                           (PStr "action", PStr "force_notify") ] ]) ].

Definition config_unclosed_set : Config :=
  {| model := model default_config; ollama_url := ollama_url default_config;
     ollama_timeout := ollama_timeout default_config;
     urgency_threshold := urgency_threshold default_config;
     system_prompt := system_prompt default_config;
     rules := DEFAULT_RULES; channels := ∅;
     keywords := [ {| kw_pattern := Some (PStr "regex:P[0-1 incident");
                      kw_action := Some FORCE_NOTIFY |} ];
     notification_timeout := notification_timeout default_config |}.

(** Messages and configurations of the test suite. *)
Definition make_msg (txt : string) : SlackMessage :=
  {| channel := "#general"; channel_id := "C123"; sender := "alice";
     sender_id := "U_ALICE"; text := txt; thread_ts := None;
     is_dm := false; is_mention := false; is_bot := false |}.

Definition with_keywords (kws : list KeywordEntry) (config : Config) : Config :=
  {| model := model config; ollama_url := ollama_url config;
     ollama_timeout := ollama_timeout config;
     urgency_threshold := urgency_threshold config;
     system_prompt := system_prompt config; rules := rules config;
     channels := channels config; keywords := kws;
     notification_timeout := notification_timeout config |}.

Definition keyword (pattern : string) (a : FilterAction) : KeywordEntry :=
  {| kw_pattern := Some (PStr pattern); kw_action := Some a |}.


(** The client, the event and the listener of the listener's tests, and
    a client whose calls fail. *)
Definition make_client : SlackClient :=
  {| conversations_info := fun _ => Returns (Some "general");
     users_info := fun _ =>
       Returns (Some {| user_profile :=
                          Some {| profile_display_name := Some "Alice";
                                  profile_real_name := Some "Alice Smith" |};
                        user_real_name := Some "Alice Smith" |}) |}.

Definition failing_client : SlackClient :=
  {| conversations_info := fun _ => Raises ValueError;
     users_info := fun _ => Raises ValueError |}.

Definition make_event : gmap string string :=
  {[ "type" := "message"; "channel" := "C_CHAN_1"; "user" := "U_ALICE";
     "text" := "hello world"; "ts" := "1700000000.000001" ]}.

Definition make_listener : SlackListener :=
  {| _bot_user_id := "U_BOT_123"; _seen_events := [];
     _channel_cache := ∅; _user_cache := ∅ |}.

(** A listener whose deque is full: it has seen the events ev0 to ev999. *)
Definition seen_from (first count : nat) : list string :=
  (fun n => "ev" +:+ pretty n) <$> seq first count.

Definition full_listener : SlackListener :=
  {| _bot_user_id := "U_BOT_123"; _seen_events := seen_from 0 1000;
     _channel_cache := ∅; _user_cache := ∅ |}.

(** * Properties *)

(** ** Text *)

Lemma contains_empty hay : Str.contains EmptyString hay = true.
Proof. by destruct hay. Qed.










Lemma N_of_ascii_lt c : (Ascii.N_of_ascii c < 256)%N.
Proof. apply N_ascii_bounded. Qed.








(** ** The error monad *)

Lemma bind_returns {A B} (m : outcome A) (k : A -> outcome B) a :
  m = Returns a -> (m ≫= k) = k a.
Proof. by intros ->. Qed.

Lemma bind_raises {A B} (m : outcome A) (k : A -> outcome B) e :
  m = Raises e -> (m ≫= k) = Raises e.
Proof. by intros ->. Qed.

Lemma returns_Returns {A} (a : A) : returns (Returns a).
Proof. by exists a. Qed.

#[local] Hint Resolve returns_Returns : core.

(** ** The rule pipeline *)

Section pipeline.
Context (env : Env) (msg : SlackMessage) (config : Config) (bot_user_id : string).

Lemma pre_filter_self :
  sender_id msg = bot_user_id ->
  pre_filter env msg config bot_user_id =
    (a ← rules_getitem config "self"; Returns {| action := a; rule := "self" |}).
Proof. intros H. unfold pre_filter. by rewrite bool_decide_true. Qed.

Lemma pre_filter_bots :
  sender_id msg <> bot_user_id -> is_bot msg = true ->
  pre_filter env msg config bot_user_id =
    (a ← rules_getitem config "bots"; Returns {| action := a; rule := "bots" |}).
Proof. intros H Hb. unfold pre_filter. by rewrite bool_decide_false, Hb. Qed.

(** Past the first two rules the keyword loop decides, and the
    contextual rules are read only when it ran to its end. *)
Lemma pre_filter_keywords found :
  sender_id msg <> bot_user_id -> is_bot msg = false ->
  keyword_loop env (keywords config) (text msg) = Returns (Some found) ->
  pre_filter env msg config bot_user_id = Returns found.
Proof.
  intros H Hb Hk. unfold pre_filter.
  by rewrite bool_decide_false, Hb, Hk.
Qed.

Lemma rules_getitem_Some name a :
  rules config !! name = Some a -> rules_getitem config name = Returns a.
Proof. unfold rules_getitem. by intros ->. Qed.

End pipeline.

Section keyword_loop.
Context (env : Env) (msg_text : string).

Lemma keyword_loop_skip pre rest :
  Forall (no_match env msg_text) pre ->
  keyword_loop env (pre ++ rest) msg_text = keyword_loop env rest msg_text.
Proof.
  induction 1 as [|kw pre Hkw _ IH]; [done|].
  simpl. unfold no_match in Hkw. by rewrite Hkw.
Qed.

Lemma keyword_loop_hit kw rest p a :
  keyword_matches env kw msg_text = Returns true ->
  kw_pattern kw = Some (PStr p) -> kw_action kw = Some a ->
  keyword_loop env (kw :: rest) msg_text =
    Returns (Some {| action := a; rule := "keyword:" +:+ p |}).
Proof.
  intros Hm Hp Ha. simpl. rewrite Hm. simpl.
  unfold keyword_result, kw_getitem_pattern, kw_getitem_action.
  by rewrite Hp, Ha.
Qed.

Lemma keyword_loop_first pre kw post p a :
  Forall (no_match env msg_text) pre ->
  keyword_matches env kw msg_text = Returns true ->
  kw_pattern kw = Some (PStr p) -> kw_action kw = Some a ->
  keyword_loop env (pre ++ kw :: post) msg_text =
    Returns (Some {| action := a; rule := "keyword:" +:+ p |}).
Proof.
  intros Hpre Hm Hp Ha. rewrite keyword_loop_skip by done.
  by apply keyword_loop_hit.
Qed.

(** When the loop runs to its end, no entry matched. *)
Lemma keyword_loop_None kws :
  keyword_loop env kws msg_text = Returns None -> Forall (no_match env msg_text) kws.
Proof.
  induction kws as [|kw kws IH]; intros H; [constructor|].
  simpl in H. unfold no_match.
  destruct (keyword_matches env kw msg_text) as [[]|e] eqn:Hm; simpl in H.
  - destruct (keyword_result kw); discriminate.
  - constructor; auto.
  - discriminate.
Qed.

(** When the loop returns a result, it is the result of one of the
    entries. *)
Lemma keyword_loop_Some kws r :
  keyword_loop env kws msg_text = Returns (Some r) ->
  exists kw p, kw ∈ kws /\ kw_pattern kw = Some (PStr p) /\
    kw_action kw = Some (action r) /\ rule r = "keyword:" +:+ p.
Proof.
  induction kws as [|kw kws IH]; intros H; [discriminate|].
  simpl in H.
  destruct (keyword_matches env kw msg_text) as [[]|e] eqn:Hm; simpl in H.
  - unfold keyword_result, kw_getitem_pattern, kw_getitem_action in H.
    destruct (kw_pattern kw) as [[| | | |p| |]|] eqn:Hp; simpl in H;
      try discriminate;
      destruct (kw_action kw) as [a|] eqn:Ha; simpl in H; try discriminate.
    injection H as <-. exists kw, p. split; [left | done].
  - destruct (IH H) as (kw' & p & Hin & ?). exists kw', p. split; [by right | done].
  - discriminate.
Qed.

End keyword_loop.

(** ** Rule precedence *)

(** C4. A message whose sender is the system's own identity is decided by
    the rule "self", with the action configured for it, whatever its
    other fields (bot flag, text, mention, DM, channel) and whatever the
    keywords and channels of the configuration. *)
Theorem self_rule_wins (env : Env) (msg : SlackMessage) (config : Config)
    (bot_user_id : string) (a : FilterAction) :
  sender_id msg = bot_user_id ->
  rules config !! "self" = Some a ->
  pre_filter env msg config bot_user_id = Returns {| action := a; rule := "self" |}.
Proof.
  intros Hself Ha.
  rewrite pre_filter_self by done.
  by rewrite (rules_getitem_Some _ _ _ Ha).
Qed.

Lemma self_rule_wins_witness :
  pre_filter Fragment.env_refused
    {| channel := "#incidents"; channel_id := "C9"; sender := "bot";
       sender_id := "U_BOT"; text := "production down"; thread_ts := None;
       is_dm := true; is_mention := true; is_bot := true |}
    (with_keywords [keyword "production down" FORCE_NOTIFY] default_config)
    "U_BOT"
  = Returns {| action := SKIP; rule := "self" |}.
Proof. apply self_rule_wins; reflexivity. Defined.

(** C5. A message from an automated account that is not the system's own
    is decided by the rule "bots", with the action configured for it,
    also when a keyword entry or a later rule would match it. *)
Theorem bots_rule_before_keywords (env : Env) (msg : SlackMessage)
    (config : Config) (bot_user_id : string) (a : FilterAction) :
  is_bot msg = true ->
  sender_id msg <> bot_user_id ->
  rules config !! "bots" = Some a ->
  pre_filter env msg config bot_user_id = Returns {| action := a; rule := "bots" |}.
Proof.
  intros Hbot Hself Ha.
  rewrite pre_filter_bots by done.
  by rewrite (rules_getitem_Some _ _ _ Ha).
Qed.

Lemma bots_rule_before_keywords_witness :
  keyword_matches Fragment.env_refused (keyword "production down" FORCE_NOTIFY)
    "production down" = Returns true /\
  pre_filter Fragment.env_refused
    {| channel := "#general"; channel_id := "C123"; sender := "deploybot";
       sender_id := "U_DEPLOY"; text := "production down"; thread_ts := None;
       is_dm := true; is_mention := true; is_bot := true |}
    (with_keywords [keyword "production down" FORCE_NOTIFY] default_config)
    "U_BOT"
  = Returns {| action := SKIP; rule := "bots" |}.
Proof.
  split; [reflexivity|].
  apply bots_rule_before_keywords; [reflexivity | discriminate | reflexivity].
Defined.

(** ** Keywords *)

Lemma keyword_matches_plain env p a t :
  Str.startswith "regex:" p = false ->
  keyword_matches env (keyword p a) t =
    Returns (Str.contains (py_lower env p) (py_lower env t)).
Proof.
  intros Hp.
  unfold keyword_matches, kw_getitem_pattern, keyword, mbind, outcome_bind, Exn.bind.
  cbn [kw_pattern]. by rewrite Hp.
Qed.








(** C10. A plain keyword entry whose pattern is the empty text matches
    every text, the empty one included.  When the loop reaches it (the
    message is past the rules "self" and "bots" and no earlier entry
    matched), its action is the decision, under the rule "keyword:",
    whatever the later entries, the mention and DM flags, the channel
    and the rules say; and with such an entry in the list no decision is
    ever made by a contextual rule: every decision comes from a keyword
    entry. *)
Theorem empty_keyword_shadows_later_rules (env : Env) (msg : SlackMessage)
    (config : Config) (bot_user_id : string)
    (pre post : list KeywordEntry) (a : FilterAction) :
  sender_id msg <> bot_user_id ->
  is_bot msg = false ->
  keywords config = pre ++ keyword EmptyString a :: post ->
  (forall t, keyword_matches env (keyword EmptyString a) t = Returns true) /\
  (Forall (no_match env (text msg)) pre ->
     pre_filter env msg config bot_user_id =
       Returns {| action := a; rule := "keyword:" |}) /\
  (forall r, pre_filter env msg config bot_user_id = Returns r ->
     exists kw p, kw ∈ keywords config /\ kw_pattern kw = Some (PStr p) /\
       kw_action kw = Some (action r) /\ rule r = "keyword:" +:+ p).
Proof.
  intros Hself Hbot Hk.
  assert (Hall : forall t, keyword_matches env (keyword EmptyString a) t = Returns true).
  { intros t. rewrite keyword_matches_plain by reflexivity.
    simpl. by rewrite contains_empty. }
  split; [exact Hall | split].
  - intros Hpre.
    apply pre_filter_keywords; [done | done |].
    rewrite Hk.
    apply (keyword_loop_first env (text msg) pre _ post EmptyString a);
      [done | apply Hall | done | done].
  - intros r Hr. unfold pre_filter in Hr.
    rewrite bool_decide_false, Hbot in Hr by done.
    destruct (keyword_loop env (keywords config) (text msg)) as [[found|]|e] eqn:Hloop;
      simpl in Hr.
    + injection Hr as <-. by apply (keyword_loop_Some env (text msg)).
    + apply keyword_loop_None in Hloop. rewrite Hk in Hloop.
      apply Forall_app in Hloop as [_ Hloop].
      apply Forall_cons in Hloop as [Hno _].
      unfold no_match in Hno. rewrite Hall in Hno. discriminate.
    + discriminate.
Qed.

Lemma empty_keyword_shadows_later_rules_witness :
  keyword_matches Fragment.env_refused (keyword EmptyString SKIP) EmptyString
    = Returns true /\
  pre_filter Fragment.env_refused
    {| channel := "#incidents"; channel_id := "C9"; sender := "alice";
       sender_id := "U_ALICE"; text := "are you there?"; thread_ts := None;
       is_dm := true; is_mention := true; is_bot := false |}
    (with_keywords [keyword "deploy" CLASSIFY; keyword EmptyString SKIP;
                    keyword "there" FORCE_NOTIFY] default_config) "U_BOT"
  = Returns {| action := SKIP; rule := "keyword:" |}.
Proof.
  destruct (empty_keyword_shadows_later_rules Fragment.env_refused
    {| channel := "#incidents"; channel_id := "C9"; sender := "alice";
       sender_id := "U_ALICE"; text := "are you there?"; thread_ts := None;
       is_dm := true; is_mention := true; is_bot := false |}
    (with_keywords [keyword "deploy" CLASSIFY; keyword EmptyString SKIP;
                    keyword "there" FORCE_NOTIFY] default_config) "U_BOT"
    [keyword "deploy" CLASSIFY] [keyword "there" FORCE_NOTIFY] SKIP)
    as (Hall & Hfirst & _); [discriminate | reflexivity | reflexivity |].
  split; [apply Hall | apply Hfirst].
  repeat constructor.
Defined.

(** ** Totality of the filter engine *)

Lemma validate_keywords_well_formed kws :
  validate_keywords kws = Returns tt -> Forall well_formed_keyword kws.
Proof.
  induction kws as [|kw kws IH]; intros H; [constructor|].
  simpl in H.
  destruct (kw_pattern kw) as [pattern|] eqn:Hp; [|discriminate].
  destruct (kw_action kw) as [a|] eqn:Ha; [|discriminate].
  destruct pattern; try discriminate.
  constructor; [|by apply IH]. unfold well_formed_keyword. eauto.
Qed.

Lemma _validate_config_keywords config :
  _validate_config config = Returns tt -> Forall well_formed_keyword (keywords config).
Proof.
  unfold _validate_config. intros H.
  destruct (negb _); [discriminate|].
  destruct (number_le_zero _); [discriminate|].
  by apply validate_keywords_well_formed.
Qed.

Lemma keyword_loop_returns env msg_text kws :
  Forall well_formed_keyword kws ->
  Forall (regex_compiles env msg_text) kws ->
  returns (keyword_loop env kws msg_text).
Proof.
  induction 1 as [|kw kws (p & a & Hp & Ha) _ IH]; intros Hre; [by eexists|].
  apply Forall_cons in Hre as [Hkw Hre].
  assert (Hm : returns (keyword_matches env kw msg_text)).
  { unfold keyword_matches, kw_getitem_pattern. rewrite Hp.
    unfold mbind, outcome_bind, Exn.bind.
    destruct (Str.startswith "regex:" p) eqn:Htag; [by apply Hkw | by eexists]. }
  destruct Hm as [[] Hm].
  - rewrite (keyword_loop_hit env msg_text kw kws p a) by done. by eexists.
  - simpl. rewrite Hm. by apply IH.
Qed.

Lemma load_rules_defined raw rs rs' :
  (forall k, k ∈ VALID_RULE_KEYS -> is_Some (rs !! k)) ->
  load_rules raw rs = Returns rs' ->
  forall k, k ∈ VALID_RULE_KEYS -> is_Some (rs' !! k).
Proof.
  revert rs. induction raw as [|[key value] raw IH]; intros rs Hrs H.
  - simpl in H. by injection H as <-.
  - simpl in H. destruct key; try by apply (IH rs).
    case_bool_decide; [|by apply (IH rs)].
    destruct (_parse_action value) as [a|e]; [|discriminate]. simpl in H.
    apply (IH (<[s := a]> rs)); [|done].
    intros k Hk. apply lookup_insert_is_Some'. right. by apply Hrs.
Qed.

Lemma DEFAULT_RULES_defined k : k ∈ VALID_RULE_KEYS -> is_Some (DEFAULT_RULES !! k).
Proof.
  unfold VALID_RULE_KEYS. rewrite !elem_of_cons, elem_of_nil.
  intros [->|[->|[->|[->|[->|[]]]]]]; by eexists.
Qed.

(** What loading establishes: the result passed validation and defines
    the five named rules. *)
Lemma load_config_structured_accepted env raw config :
  load_config_structured env raw = Returns config ->
  _validate_config config = Returns tt /\
  forall k, k ∈ VALID_RULE_KEYS -> is_Some (rules config !! k).
Proof.
  unfold load_config_structured. intros H.
  destruct (match raw with PNone => PDict [] | _ => raw end) as [| | | | | |d];
    try discriminate.
  destruct (read_number _ _) as [timeout|e]; [|discriminate]. simpl in H.
  destruct (read_int _ _) as [threshold|e]; [|discriminate]. simpl in H.
  destruct (load_config_rules d DEFAULT_RULES) as [rs|e] eqn:Hrs; [|discriminate].
  simpl in H.
  destruct (load_config_channels d ∅) as [chans|e]; [|discriminate]. simpl in H.
  destruct (load_config_keywords d []) as [kws|e] eqn:Hkws; [|discriminate].
  simpl in H.
  match type of H with
  | (_validate_config ?c ≫= _) = _ =>
      destruct (_validate_config c) as [[]|e] eqn:Hv; [|discriminate]
  end.
  simpl in H. injection H as <-. split; [done|]. simpl.
  unfold load_config_rules in Hrs.
  destruct (Py.dict_get "rules" d) as [[| | | | | |raw_rules]|]; try discriminate.
  - by apply (load_rules_defined raw_rules DEFAULT_RULES rs DEFAULT_RULES_defined).
  - injection Hrs as <-. apply DEFAULT_RULES_defined.
Qed.

(** C3, as the code has it.  Validation checks that every keyword entry
    has a text pattern and an action; it does not compile the patterns
    tagged "regex:".  For a configuration that passed validation and
    defines the five named rules (as every loaded one does), pre_filter
    returns a decision for every message on which the searches of the
    regex-tagged patterns do not raise. *)
Theorem pre_filter_total_when_regexes_compile (env : Env) (msg : SlackMessage)
    (config : Config) (bot_user_id : string) :
  _validate_config config = Returns tt ->
  (forall k, k ∈ VALID_RULE_KEYS -> is_Some (rules config !! k)) ->
  Forall (regex_compiles env (text msg)) (keywords config) ->
  returns (pre_filter env msg config bot_user_id).
Proof.
  intros Hv Hrules Hre.
  assert (Hget : forall k r, k ∈ VALID_RULE_KEYS ->
            returns (a ← rules_getitem config k;
                     Returns {| action := a; rule := r |})).
  { intros k r Hk. destruct (Hrules k Hk) as [a Ha].
    rewrite (rules_getitem_Some _ _ _ Ha). by eexists. }
  unfold pre_filter.
  case_bool_decide; [apply Hget; set_solver|].
  destruct (is_bot msg); [apply Hget; set_solver|].
  destruct (keyword_loop_returns env (text msg) (keywords config)) as [found Hloop];
    [by apply _validate_config_keywords | done |].
  rewrite Hloop. simpl.
  destruct found as [r|]; [by eexists|].
  destruct (is_mention msg); [apply Hget; set_solver|].
  destruct (is_dm msg); [apply Hget; set_solver|].
  destruct (channels config !! channel msg); [by eexists|].
  apply Hget; set_solver.
Qed.

Lemma pre_filter_total_when_regexes_compile_witness :
  returns (pre_filter Fragment.env_refused (make_msg "we have a p0 INCIDENT")
             (with_keywords [keyword "regex:P[0-1] incident" FORCE_NOTIFY]
                default_config) "U_BOT").
Proof.
  apply pre_filter_total_when_regexes_compile.
  - reflexivity.
  - apply DEFAULT_RULES_defined.
  - repeat constructor. intros p Hp _. injection Hp as <-. by eexists.
Defined.

(** C3, as stated, fails: a configuration file whose only keyword is a
    regex with an unclosed character set is accepted by loading and by
    validation, and pre_filter raises on a message that reaches the
    keyword step. *)
Lemma unclosed_regex_accepted_then_raises :
  load_config_structured Fragment.env_refused raw_unclosed_set =
    Returns config_unclosed_set /\
  _validate_config config_unclosed_set = Returns tt /\
  pre_filter Fragment.env_refused (make_msg "P0 incident in prod")
    config_unclosed_set "U_BOT" = Raises ReError.
Proof. repeat split; reflexivity. Qed.

(** ** The classifier *)

Lemma isinstance_network e :
  RequestsConnectionError ∈ mro e \/ RequestsTimeout ∈ mro e ->
  isinstance e except_network = true.
Proof.
  intros H. unfold isinstance, except_network. simpl.
  destruct H as [H|H]; rewrite (bool_decide_true _ H); by rewrite ?orb_true_r.
Qed.

Lemma classify_try_post_raises env msg config e :
  requests_post env (ollama_url config +:+ "/api/chat") (chat_request msg config)
    (ollama_timeout config) = Raises e ->
  classify_try env msg config = Raises e.
Proof. intros H. unfold classify_try. by rewrite H. Qed.

(** On the CLASSIFY path handle_message notifies exactly when the
    urgency reaches the threshold. *)
Lemma handle_message_classify env msg config bot_user_id r c :
  pre_filter env msg config bot_user_id = Returns r ->
  action r = CLASSIFY ->
  classify env msg config = Returns c ->
  handle_message env (Some msg) config bot_user_id =
    Returns (if urgency_threshold config <=? urgency c
             then [notify msg (reason c) (Some (urgency c)) config]
             else []).
Proof.
  intros Hr Ha Hc. unfold handle_message. rewrite Hr. simpl. rewrite Ha. simpl.
  rewrite Hc. simpl. by destruct (_ <=? _).
Qed.

(** C1. When the network call of the classifier fails with a connection
    failure or a timeout, classify returns a classification whose urgency
    is the configured threshold and whose reason contains "unavailable";
    the inclusive comparison of the orchestrator then notifies. *)
Theorem classifier_fails_open (env : Env) (msg : SlackMessage) (config : Config)
    (e : exn) :
  requests_post env (ollama_url config +:+ "/api/chat") (chat_request msg config)
    (ollama_timeout config) = Raises e ->
  RequestsConnectionError ∈ mro e \/ RequestsTimeout ∈ mro e ->
  exists c,
    classify env msg config = Returns c /\
    urgency c = urgency_threshold config /\
    Str.contains "unavailable" (reason c) = true /\
    forall bot_user_id r,
      pre_filter env msg config bot_user_id = Returns r ->
      action r = CLASSIFY ->
      handle_message env (Some msg) config bot_user_id =
        Returns [notify msg (reason c) (Some (urgency c)) config].
Proof.
  intros Hpost He.
  assert (Hc : classify env msg config = Returns (_fallback config)).
  { unfold classify.
    rewrite (classify_try_post_raises _ _ _ _ Hpost).
    by rewrite (isinstance_network _ He). }
  exists (_fallback config). split; [done | split; [done | split; [done|]]].
  intros bot_user_id r Hr Ha.
  rewrite (handle_message_classify _ _ _ _ _ _ Hr Ha Hc).
  simpl. by rewrite Z.leb_refl.
Qed.

Lemma classifier_fails_open_witness :
  exists c,
    classify Fragment.env_timeout (make_msg "is anyone around?") default_config
      = Returns c /\
    urgency c = 3 /\
    Str.contains "unavailable" (reason c) = true /\
    forall bot_user_id r,
      pre_filter Fragment.env_timeout (make_msg "is anyone around?")
        default_config bot_user_id = Returns r ->
      action r = CLASSIFY ->
      handle_message Fragment.env_timeout (Some (make_msg "is anyone around?"))
        default_config bot_user_id =
        Returns [notify (make_msg "is anyone around?") (reason c)
                   (Some (urgency c)) default_config].
Proof.
  apply (classifier_fails_open Fragment.env_timeout (make_msg "is anyone around?")
           default_config RequestsReadTimeout).
  - reflexivity.
  - right. set_solver.
Defined.

(** A 4xx or 5xx answer makes raise_for_status raise HTTPError, which
    neither [except] clause of classify names. *)
Lemma classify_http_error_escapes env msg config resp :
  requests_post env (ollama_url config +:+ "/api/chat") (chat_request msg config)
    (ollama_timeout config) = Returns resp ->
  400 <= status_code resp < 600 ->
  classify env msg config = Raises RequestsHTTPError.
Proof.
  intros Hpost [Hlo Hhi]. unfold classify, classify_try. rewrite Hpost. simpl.
  unfold raise_for_status.
  apply Z.leb_le in Hlo. apply Z.ltb_lt in Hhi. by rewrite Hlo, Hhi.
Qed.

(** C2 fails on the code: when the service answers with status 500,
    classify raises HTTPError outward, and so does handle_message; and a
    reply whose urgency decodes to an infinite float makes [int] raise
    OverflowError, which escapes in the same way. *)
Theorem classify_raises_on_http_500 :
  classify Fragment.env_http_500 (make_msg "production down") default_config
    = Raises RequestsHTTPError /\
  handle_message Fragment.env_http_500 (Some (make_msg "production down"))
    default_config "U_BOT" = Raises RequestsHTTPError /\
  classify (Fragment.env_reply (PFloat (S754_infinity false)) "overflowing")
    (make_msg "production down") default_config = Raises OverflowError.
Proof.
  split; [|split].
  - by apply (classify_http_error_escapes _ _ _
                {| status_code := 500; resp_text := "Internal Server Error" |}).
  - reflexivity.
  - reflexivity.
Qed.

(** C8. The urgency of a reply that was read successfully is clamped into
    [1, 5] before classify returns: 0, -3 and 7 become 1, 1 and 5, and a
    value already in the range is returned as it is. *)
Theorem classify_clamps_urgency (env : Env) (msg : SlackMessage) (config : Config)
    (raw_urgency : Z) (raw_reason : string) :
  classify_try env msg config = Returns (raw_urgency, raw_reason) ->
  exists c,
    classify env msg config = Returns c /\
    reason c = raw_reason /\
    urgency c = Z.max 1 (Z.min 5 raw_urgency) /\
    1 <= urgency c <= 5 /\
    (raw_urgency = 0 -> urgency c = 1) /\
    (raw_urgency = -3 -> urgency c = 1) /\
    (raw_urgency = 7 -> urgency c = 5) /\
    (1 <= raw_urgency <= 5 -> urgency c = raw_urgency).
Proof.
  intros Htry.
  exists {| urgency := Z.max 1 (Z.min 5 raw_urgency); reason := raw_reason |}.
  split; [unfold classify; by rewrite Htry|].
  simpl. repeat split; try done; try lia.
Qed.

Lemma classify_clamps_urgency_witness :
  (exists c, classify (Fragment.env_reply (PInt 0) "very low") (make_msg "hello world")
               default_config = Returns c /\ urgency c = 1) /\
  (exists c, classify (Fragment.env_reply (PInt (-3)) "way below") (make_msg "hello world")
               default_config = Returns c /\ urgency c = 1) /\
  (exists c, classify (Fragment.env_reply (PInt 7) "off the charts") (make_msg "hello world")
               default_config = Returns c /\ urgency c = 5) /\
  (exists c, classify (Fragment.env_reply (PInt 1) "boundary") (make_msg "hello world")
               default_config = Returns c /\ urgency c = 1) /\
  (exists c, classify (Fragment.env_reply (PInt 5) "boundary") (make_msg "hello world")
               default_config = Returns c /\ urgency c = 5).
Proof.
  repeat split.
  - destruct (classify_clamps_urgency (Fragment.env_reply (PInt 0) "very low")
                (make_msg "hello world") default_config 0 "very low" eq_refl)
      as (c & Hc & _ & _ & _ & H & _). exists c. split; [exact Hc | by apply H].
  - destruct (classify_clamps_urgency (Fragment.env_reply (PInt (-3)) "way below")
                (make_msg "hello world") default_config (-3) "way below" eq_refl)
      as (c & Hc & _ & _ & _ & _ & H & _). exists c. split; [exact Hc | by apply H].
  - destruct (classify_clamps_urgency (Fragment.env_reply (PInt 7) "off the charts")
                (make_msg "hello world") default_config 7 "off the charts" eq_refl)
      as (c & Hc & _ & _ & _ & _ & _ & H & _). exists c. split; [exact Hc | by apply H].
  - destruct (classify_clamps_urgency (Fragment.env_reply (PInt 1) "boundary")
                (make_msg "hello world") default_config 1 "boundary" eq_refl)
      as (c & Hc & _ & _ & _ & _ & _ & _ & H). exists c. split; [exact Hc | apply H; lia].
  - destruct (classify_clamps_urgency (Fragment.env_reply (PInt 5) "boundary")
                (make_msg "hello world") default_config 5 "boundary" eq_refl)
      as (c & Hc & _ & _ & _ & _ & _ & _ & H). exists c. split; [exact Hc | apply H; lia].
Defined.

(** ** The orchestrator and the notifier *)

(** C7. On the CLASSIFY path the comparison with the threshold is
    inclusive: a classification whose urgency equals the threshold (or
    exceeds it) makes handle_message send exactly one notification, and
    one whose urgency is below the threshold makes it send none. *)
Theorem threshold_is_inclusive (env : Env) (msg : SlackMessage) (config : Config)
    (bot_user_id : string) (r : FilterResult) (c : Classification) :
  pre_filter env msg config bot_user_id = Returns r ->
  action r = CLASSIFY ->
  classify env msg config = Returns c ->
  (urgency c = urgency_threshold config ->
     handle_message env (Some msg) config bot_user_id =
       Returns [notify msg (reason c) (Some (urgency c)) config]) /\
  (urgency_threshold config <= urgency c ->
     handle_message env (Some msg) config bot_user_id =
       Returns [notify msg (reason c) (Some (urgency c)) config]) /\
  (urgency c < urgency_threshold config ->
     handle_message env (Some msg) config bot_user_id = Returns []).
Proof.
  intros Hr Ha Hc.
  rewrite (handle_message_classify _ _ _ _ _ _ Hr Ha Hc).
  repeat split; intros H.
  - rewrite H. by rewrite Z.leb_refl.
  - apply Z.leb_le in H. by rewrite H.
  - apply Z.leb_gt in H. by rewrite H.
Qed.

Lemma threshold_is_inclusive_witness :
  handle_message (Fragment.env_reply (PInt 3) "worth a look")
    (Some (make_msg "hello world")) default_config "U_BOT"
  = Returns [ [ "notify-send"; "--urgency=normal"; "--expire-time=10000";
                "Slack: ##general"; "hello world" +:+ Str.nl +:+ Str.nl +:+ "worth a look" ] ] /\
  handle_message (Fragment.env_reply (PInt 2) "routine")
    (Some (make_msg "hello world")) default_config "U_BOT"
  = Returns [].
Proof.
  split.
  - destruct (threshold_is_inclusive (Fragment.env_reply (PInt 3) "worth a look")
                (make_msg "hello world") default_config "U_BOT"
                {| action := CLASSIFY; rule := "default" |}
                {| urgency := 3; reason := "worth a look" |}
                eq_refl eq_refl eq_refl) as (H & _ & _).
    rewrite H by reflexivity. reflexivity.
  - destruct (threshold_is_inclusive (Fragment.env_reply (PInt 2) "routine")
                (make_msg "hello world") default_config "U_BOT"
                {| action := CLASSIFY; rule := "default" |}
                {| urgency := 2; reason := "routine" |}
                eq_refl eq_refl eq_refl) as (_ & _ & H).
    apply H. simpl. lia.
Defined.

(** C9. The urgency score of a notification maps to the libnotify level:
    1 and 2 to "low", 3 to "normal", 4 and 5 to "critical", and an absent
    score to "normal"; notify passes that level to notify-send, and the
    force-notify path of handle_message calls notify without a score. *)
Theorem urgency_level_mapping :
  _urgency_level (Some 1) = "low" /\
  _urgency_level (Some 2) = "low" /\
  _urgency_level (Some 3) = "normal" /\
  _urgency_level (Some 4) = "critical" /\
  _urgency_level (Some 5) = "critical" /\
  _urgency_level None = "normal" /\
  (forall msg reason urgency config,
     notify msg reason urgency config !! 1%nat =
       Some ("--urgency=" +:+ _urgency_level urgency)) /\
  (forall env msg config bot_user_id r,
     pre_filter env msg config bot_user_id = Returns r ->
     action r = FORCE_NOTIFY ->
     handle_message env (Some msg) config bot_user_id =
       Returns [notify msg ("Matched rule: " +:+ rule r) None config]).
Proof.
  repeat split.
  intros env msg config bot_user_id r Hr Ha.
  unfold handle_message. rewrite Hr. simpl. by rewrite Ha.
Qed.

Lemma urgency_level_mapping_witness :
  handle_message Fragment.env_refused
    (Some {| channel := "DM"; channel_id := "D1"; sender := "alice";
             sender_id := "U_ALICE"; text := "ping"; thread_ts := None;
             is_dm := true; is_mention := false; is_bot := false |})
    default_config "U_BOT"
  = Returns [ [ "notify-send"; "--urgency=normal"; "--expire-time=10000";
                "Slack: DM from @alice";
                "ping" +:+ Str.nl +:+ Str.nl +:+ "Matched rule: dms" ] ].
Proof.
  destruct urgency_level_mapping as (_ & _ & _ & _ & _ & _ & _ & H).
  rewrite (H Fragment.env_refused
             {| channel := "DM"; channel_id := "D1"; sender := "alice";
                sender_id := "U_ALICE"; text := "ping"; thread_ts := None;
                is_dm := true; is_mention := false; is_bot := false |}
             default_config "U_BOT"
             {| action := FORCE_NOTIFY; rule := "dms" |} eq_refl eq_refl).
  reflexivity.
Defined.


(** * Further properties of the code *)

(** An equation between outcomes that is absurd or names the exception. *)
Ltac solve_raises H := first [discriminate H | by injection H as <-].

(** A decidable fact about concrete data, by evaluation. *)
Ltac decide_by_compute := apply (bool_decide_unpack _); vm_compute; exact I.

(** ** filters.py: the contextual rules *)

Lemma keyword_loop_no_match env msg_text kws :
  Forall (no_match env msg_text) kws ->
  keyword_loop env kws msg_text = Returns None.
Proof.
  intros H. rewrite <- (app_nil_r kws). by rewrite keyword_loop_skip.
Qed.

(** When no keyword entry matches (in particular when the list is empty),
    the decision is taken by the first of: the mention rule, the DM rule,
    the override of the message's channel, the default rule.  A message
    that is both a mention and a DM is decided by "mentions"; a channel
    without an override falls through to "default". *)
Theorem contextual_rules_in_order (env : Env) (msg : SlackMessage) (config : Config)
    (bot_user_id : string) (a_mentions a_dms a_default : FilterAction) :
  sender_id msg <> bot_user_id ->
  is_bot msg = false ->
  Forall (no_match env (text msg)) (keywords config) ->
  rules config !! "mentions" = Some a_mentions ->
  rules config !! "dms" = Some a_dms ->
  rules config !! "default" = Some a_default ->
  pre_filter env msg config bot_user_id =
    Returns
      (if is_mention msg then {| action := a_mentions; rule := "mentions" |}
       else if is_dm msg then {| action := a_dms; rule := "dms" |}
       else match channels config !! channel msg with
            | Some a => {| action := a; rule := "channel:" +:+ channel msg |}
            | None => {| action := a_default; rule := "default" |}
            end).
Proof.
  intros Hself Hbot Hkw Hm Hd Hdef. unfold pre_filter.
  rewrite bool_decide_false, Hbot by done.
  rewrite (keyword_loop_no_match _ _ _ Hkw). simpl.
  rewrite (rules_getitem_Some _ _ _ Hm), (rules_getitem_Some _ _ _ Hd),
    (rules_getitem_Some _ _ _ Hdef).
  destruct (is_mention msg); [done|].
  destruct (is_dm msg); [done|].
  by destruct (channels config !! channel msg).
Qed.

Lemma contextual_rules_in_order_witness :
  pre_filter Fragment.env_refused
    {| channel := "DM"; channel_id := "D1"; sender := "alice";
       sender_id := "U_ALICE"; text := "hey, got a minute?"; thread_ts := None;
       is_dm := true; is_mention := true; is_bot := false |}
    (with_keywords [keyword "production down" FORCE_NOTIFY] default_config) "U_BOT"
  = Returns {| action := FORCE_NOTIFY; rule := "mentions" |}.
Proof.
  apply (contextual_rules_in_order Fragment.env_refused
           {| channel := "DM"; channel_id := "D1"; sender := "alice";
              sender_id := "U_ALICE"; text := "hey, got a minute?"; thread_ts := None;
              is_dm := true; is_mention := true; is_bot := false |}
           (with_keywords [keyword "production down" FORCE_NOTIFY] default_config)
           "U_BOT" FORCE_NOTIFY FORCE_NOTIFY CLASSIFY);
    try reflexivity; [discriminate | repeat constructor].
Defined.

(** Every decision pre_filter returns is one the configuration holds: a
    named rule with the action it maps to, a keyword entry with its
    action and its pattern in the rule identifier, or the override of the
    message's channel. *)
Theorem pre_filter_decision_from_config (env : Env) (msg : SlackMessage)
    (config : Config) (bot_user_id : string) (r : FilterResult) :
  pre_filter env msg config bot_user_id = Returns r ->
  (rule r ∈ VALID_RULE_KEYS /\ rules config !! rule r = Some (action r)) \/
  (exists kw p, kw ∈ keywords config /\ kw_pattern kw = Some (PStr p) /\
     kw_action kw = Some (action r) /\ rule r = "keyword:" +:+ p) \/
  (rule r = "channel:" +:+ channel msg /\
     channels config !! channel msg = Some (action r)).
Proof.
  assert (Hnamed : forall name, name ∈ VALID_RULE_KEYS ->
    (a ← rules_getitem config name; Returns {| action := a; rule := name |})
      = Returns r ->
    rule r ∈ VALID_RULE_KEYS /\ rules config !! rule r = Some (action r)).
  { intros name Hname H. unfold rules_getitem in H.
    destruct (rules config !! name) as [a|] eqn:Ha; [|discriminate].
    simpl in H. injection H as <-. done. }
  unfold pre_filter. intros H.
  case_bool_decide; [left; apply (Hnamed "self"); [decide_by_compute | done]|].
  destruct (is_bot msg); [left; apply (Hnamed "bots"); [decide_by_compute | done]|].
  destruct (keyword_loop env (keywords config) (text msg)) as [[found|]|e] eqn:Hloop;
    simpl in H; [| |discriminate].
  { injection H as <-. right; left. by apply (keyword_loop_Some env (text msg)). }
  destruct (is_mention msg); [left; apply (Hnamed "mentions"); [decide_by_compute | done]|].
  destruct (is_dm msg); [left; apply (Hnamed "dms"); [decide_by_compute | done]|].
  destruct (channels config !! channel msg) as [a|] eqn:Hc.
  - injection H as <-. right; right. done.
  - left; apply (Hnamed "default"); [decide_by_compute | done].
Qed.

Lemma pre_filter_decision_from_config_witness :
  (rule {| action := CLASSIFY; rule := "default" |} ∈ VALID_RULE_KEYS /\
   rules default_config !! "default" = Some CLASSIFY) \/
  (exists kw p, kw ∈ keywords default_config /\ kw_pattern kw = Some (PStr p) /\
     kw_action kw = Some CLASSIFY /\ "default" = "keyword:" +:+ p) \/
  ("default" = "channel:" +:+ "#general" /\
     channels default_config !! "#general" = Some CLASSIFY).
Proof.
  exact (pre_filter_decision_from_config Fragment.env_refused (make_msg "hello world")
           default_config "U_BOT" {| action := CLASSIFY; rule := "default" |} eq_refl).
Defined.



(** ** config.py *)

Lemma parse_action_raises v e : _parse_action v = Raises e -> e = ValueError.
Proof.
  unfold _parse_action.
  destruct v; try (by intros [= <-]).
  destruct (find _ _); [discriminate | by intros [= <-]].
Qed.

(** _parse_action decodes exactly the values of the three members: the
    value of a member is parsed back to it, only that text is, and every
    other object (an unknown text, a number, a list, nothing) is a
    ValueError. *)
Theorem parse_action_decodes_member_values :
  (forall a, _parse_action (PStr (FilterAction_value a)) = Returns a) /\
  (forall v a, _parse_action v = Returns a <-> v = PStr (FilterAction_value a)) /\
  (forall v e, _parse_action v = Raises e -> e = ValueError).
Proof.
  assert (Hfind : forall s a,
    find (fun a => bool_decide (FilterAction_value a = s)) FilterAction_members = Some a ->
    s = FilterAction_value a).
  { intros s a H. apply find_some in H as [_ H]. by apply bool_decide_eq_true in H. }
  split; [by intros [] | split].
  - intros v a. split; [|by intros ->; destruct a].
    unfold _parse_action. destruct v; try discriminate.
    destruct (find _ _) as [a'|] eqn:Hf; [|discriminate].
    intros [= <-]. by rewrite (Hfind _ _ Hf).
  - apply parse_action_raises.
Qed.

(** On a configuration whose fields have their types, _validate_config
    returns exactly when the threshold lies in 1..5, [timeout <= 0] is
    false, and every keyword entry has a text pattern and an action. *)
Lemma _validate_config_outcome (config : Config) :
  (_validate_config config = Returns tt <->
     1 <= urgency_threshold config <= 5 /\
     number_le_zero (ollama_timeout config) = false /\
     Forall well_formed_keyword (keywords config)) /\
  (forall e, _validate_config config = Raises e -> e = ValueError).
Proof.
  assert (Hkw : forall kws,
    (validate_keywords kws = Returns tt <-> Forall well_formed_keyword kws) /\
    (forall e, validate_keywords kws = Raises e -> e = ValueError)).
  { induction kws as [|kw kws [IH1 IH2]].
    - split; [split; [constructor | done] | discriminate].
    - simpl. split.
      + rewrite Forall_cons. unfold well_formed_keyword at 1.
        destruct (kw_pattern kw) as [pattern|]; [|split; [discriminate | by intros [(? & ? & ? & ?) _]]].
        destruct (kw_action kw) as [a|]; [|split; [discriminate | by intros [(? & ? & ? & ?) _]]].
        destruct pattern;
          try (split; [discriminate | by intros [(? & ? & ? & ?) _]]).
        rewrite IH1. split; [by eauto | by intros [_ ?]].
      + intros e.
        destruct (kw_pattern kw) as [pattern|]; [|by intros [= <-]].
        destruct (kw_action kw) as [a|]; [|by intros [= <-]].
        destruct pattern; try (by intros [= <-]). apply IH2. }
  unfold _validate_config.
  destruct (Hkw (keywords config)) as [Hk1 Hk2].
  destruct (1 <=? urgency_threshold config) eqn:Hlo;
    destruct (urgency_threshold config <=? 5) eqn:Hhi; simpl;
    try (split; [split; [discriminate | intros [? _]; lia] | by intros e [= <-]]).
  destruct (number_le_zero (ollama_timeout config)).
  - split; [split; [discriminate | by intros (_ & ? & _)] | by intros e [= <-]].
  - split; [|done]. rewrite Hk1. split; [|by intros (_ & _ & ?)].
    intros H. split; [lia | done].
Qed.

Lemma _validate_config_returns (config : Config) :
  _validate_config config = Returns tt <->
    1 <= urgency_threshold config <= 5 /\
    number_le_zero (ollama_timeout config) = false /\
    Forall well_formed_keyword (keywords config).
Proof. apply _validate_config_outcome. Qed.

Lemma dict_get_Some k d v : Py.dict_get k d = Some v -> (PStr k, v) ∈ d.
Proof.
  induction d as [|[key value] d IH]; [discriminate|]. simpl.
  destruct key; try (intros H; right; by apply IH).
  case_bool_decide as Hk; [|intros H; right; by apply IH].
  intros [= <-]. subst. by left.
Qed.

Lemma dict_get_None k d : Py.dict_get k d = None -> forall v, (PStr k, v) ∉ d.
Proof.
  induction d as [|[key value] d IH]; intros H v Hin;
    [by apply elem_of_nil in Hin|].
  simpl in H. apply elem_of_cons in Hin as [Heq|Hin].
  - injection Heq as <- <-. by rewrite bool_decide_true in H.
  - destruct key; try (by apply (IH H v)).
    case_bool_decide; [discriminate | by apply (IH H v)].
Qed.

(** Merging the "rules" of a file into a rule map: a name that is not one
    of the five, or that the file does not mention, keeps the action it
    had; a name of the five that the file mentions gets an action parsed
    from one of its entries. *)
Theorem load_rules_merges (raw : list (pyobj * pyobj))
    (rs rs' : gmap string FilterAction) :
  load_rules raw rs = Returns rs' ->
  (forall k, k ∉ VALID_RULE_KEYS -> rs' !! k = rs !! k) /\
  (forall k, (forall v, (PStr k, v) ∉ raw) -> rs' !! k = rs !! k) /\
  (forall k v, (PStr k, v) ∈ raw -> k ∈ VALID_RULE_KEYS ->
     exists v' a, (PStr k, v') ∈ raw /\ _parse_action v' = Returns a /\
       rs' !! k = Some a).
Proof.
  revert rs. induction raw as [|[key value] raw IH]; intros rs H.
  { simpl in H. injection H as <-.
    split; [done | split; [done|]]. intros k v Hin. by apply elem_of_nil in Hin. }
  simpl in H.
  assert (Hskip : load_rules raw rs = Returns rs' ->
            (forall k, key = PStr k -> k ∉ VALID_RULE_KEYS) ->
            (∀ k, k ∉ VALID_RULE_KEYS → rs' !! k = rs !! k) /\
            (∀ k, (∀ v, (PStr k, v) ∉ (key, value) :: raw) → rs' !! k = rs !! k) /\
            (∀ k v, (PStr k, v) ∈ (key, value) :: raw → k ∈ VALID_RULE_KEYS →
               ∃ v' a, (PStr k, v') ∈ (key, value) :: raw /\
                 _parse_action v' = Returns a /\ rs' !! k = Some a)).
  { intros H' Hkey. destruct (IH rs H') as (I1 & I2 & I3).
    split; [done | split].
    - intros k Hk. apply I2. intros v Hv. apply (Hk v). by right.
    - intros k v Hin Hvalid. apply elem_of_cons in Hin as [Heq|Hin].
      + injection Heq as <- <-. by destruct (Hkey k eq_refl).
      + destruct (I3 k v Hin Hvalid) as (v' & a & ? & ? & ?).
        exists v', a. split; [by right | done]. }
  destruct key as [| | | |k0| |]; try (apply Hskip; [done | discriminate]).
  case_bool_decide as Hvalid0; [|apply Hskip; [done | by intros k [= <-]]].
  destruct (_parse_action value) as [a0|e] eqn:Hparse; [|discriminate].
  simpl in H. destruct (IH _ H) as (I1 & I2 & I3).
  split; [|split].
  - intros k Hk. rewrite I1 by done. apply lookup_insert_ne. by intros ->.
  - intros k Hk. rewrite I2.
    + apply lookup_insert_ne. intros ->. apply (Hk value). by left.
    + intros v Hv. apply (Hk v). by right.
  - intros k v Hin Hvalid.
    destruct (Py.dict_get k raw) as [v1|] eqn:Hget.
    + destruct (I3 k v1 (dict_get_Some _ _ _ Hget) Hvalid) as (v' & a & ? & ? & ?).
      exists v', a. split; [by right | done].
    + pose proof (dict_get_None _ _ Hget) as Hnone.
      assert (k = k0) as ->.
      { apply elem_of_cons in Hin as [[= -> _]|Hin]; [done|].
        by destruct (Hnone v). }
      exists value, a0. split; [by left | split; [done|]].
      rewrite I2 by done. apply lookup_insert_eq.
Qed.

Lemma load_rules_merges_witness :
  exists rs',
    load_rules [ (PStr "bots", PStr "classify"); (PStr "bogus", PStr "nope") ]
      DEFAULT_RULES = Returns rs' /\
    rs' !! "bots" = Some CLASSIFY /\
    rs' !! "mentions" = Some FORCE_NOTIFY /\
    rs' !! "bogus" = None.
Proof.
  exists (<["bots" := CLASSIFY]> DEFAULT_RULES).
  destruct (load_rules_merges
              [ (PStr "bots", PStr "classify"); (PStr "bogus", PStr "nope") ]
              DEFAULT_RULES (<["bots" := CLASSIFY]> DEFAULT_RULES) eq_refl)
    as (Hother & Hkeep & Hset).
  split; [reflexivity | split; [reflexivity | split]].
  - rewrite Hkeep; [reflexivity|].
    intros v Hin.
    repeat (apply elem_of_cons in Hin as [Hin|Hin]; [discriminate|]).
    by apply elem_of_nil in Hin.
  - rewrite Hother; [reflexivity|]. decide_by_compute.
Defined.

Lemma load_rules_raises raw rs e : load_rules raw rs = Raises e -> e = ValueError.
Proof.
  revert rs. induction raw as [|[key value] raw IH]; intros rs; [discriminate|].
  simpl. destruct key; try apply IH.
  case_bool_decide; [|apply IH].
  destruct (_parse_action value) as [a|e'] eqn:Hp; simpl; [apply IH|].
  intros [= <-]. by apply (parse_action_raises value).
Qed.

Lemma load_rules_returns (raw : list (pyobj * pyobj))
    (rs : gmap string FilterAction) :
  returns (load_rules raw rs) <->
    forall k v, (PStr k, v) ∈ raw -> k ∈ VALID_RULE_KEYS ->
      returns (_parse_action v).
Proof.
  revert rs. induction raw as [|[key value] raw IH]; intros rs.
  { split; [|by eexists]. intros _ k v Hin. by apply elem_of_nil in Hin. }
  assert (Hskip : (forall k, key = PStr k -> k ∉ VALID_RULE_KEYS) ->
    (returns (load_rules raw rs) <->
       forall k v, (PStr k, v) ∈ (key, value) :: raw -> k ∈ VALID_RULE_KEYS ->
         returns (_parse_action v))).
  { intros Hkey. rewrite IH. split; intros H k v Hin Hvalid.
    - apply elem_of_cons in Hin as [[= <- <-]|Hin]; [by destruct (Hkey k)|].
      by apply (H k v).
    - apply (H k v); [by right | done]. }
  simpl. destruct key as [| | | |k0| |]; try (apply Hskip; discriminate).
  case_bool_decide as Hvalid0; [|apply Hskip; by intros k [= <-]].
  destruct (_parse_action value) as [a|e] eqn:Hp; simpl.
  - rewrite IH. split; intros H k v Hin Hvalid.
    + apply elem_of_cons in Hin as [[= <- <-]|Hin]; [rewrite Hp; by eexists|].
      by apply (H k v).
    + apply (H k v); [by right | done].
  - split; [by intros [? ?]|]. intros H.
    destruct (H k0 value) as [a Ha]; [by left | done | congruence].
Qed.

(** Loading the rules fails exactly when an entry under one of the five
    names carries an action that does not parse, and then with a
    ValueError; an entry under any other key is skipped before its action
    is looked at, so an unknown key never makes loading fail. *)
Theorem load_rules_returns_iff (raw : list (pyobj * pyobj))
    (rs : gmap string FilterAction) :
  (returns (load_rules raw rs) <->
     forall k v, (PStr k, v) ∈ raw -> k ∈ VALID_RULE_KEYS ->
       returns (_parse_action v)) /\
  (forall e, load_rules raw rs = Raises e -> e = ValueError).
Proof. split; [apply load_rules_returns | apply load_rules_raises]. Qed.

Lemma load_keywords_returns (raw : list pyobj) (acc kws : list KeywordEntry) :
  load_keywords raw acc = Returns kws <->
  exists new, kws = acc ++ new /\
    Forall2 (fun entry kw => load_keyword entry = Returns kw) raw new.
Proof.
  revert acc. induction raw as [|entry raw IH]; intros acc; simpl.
  - split.
    + intros [= <-]. exists []. by rewrite app_nil_r.
    + intros (new & -> & Hnew). apply Forall2_nil_inv_l in Hnew as ->.
      by rewrite app_nil_r.
  - destruct (load_keyword entry) as [kw|e] eqn:Hkw; simpl.
    + rewrite IH. split.
      * intros (new & -> & Hnew). exists (kw :: new).
        split; [by rewrite <- app_assoc | by constructor].
      * intros (new & -> & Hnew).
        apply Forall2_cons_inv_l in Hnew as (kw' & new' & Hkw' & Hnew' & ->).
        assert (kw' = kw) as -> by congruence.
        exists new'. split; [by rewrite <- app_assoc | done].
    + split; [discriminate|]. intros (new & _ & Hnew).
      apply Forall2_cons_inv_l in Hnew as (kw' & new' & Hkw' & _). congruence.
Qed.

(** Loading the keywords keeps their order and their number: it succeeds
    exactly when every entry loads, and the result is the entries already
    collected followed by the loaded ones, in the order of the file. *)
Theorem load_keywords_in_order (raw : list pyobj) (acc kws : list KeywordEntry) :
  load_keywords raw acc = Returns kws <->
  exists new, kws = acc ++ new /\
    Forall2 (fun entry kw => load_keyword entry = Returns kw) raw new.
Proof. apply load_keywords_returns. Qed.

Lemma load_keywords_raises raw acc e :
  load_keywords raw acc = Raises e -> e = ValueError.
Proof.
  revert acc. induction raw as [|entry raw IH]; intros acc; [discriminate|].
  simpl. destruct (load_keyword entry) as [kw|e'] eqn:Hkw; simpl; [apply IH|].
  intros [= <-]. unfold load_keyword in Hkw.
  destruct entry; try (by injection Hkw as <-).
  destruct (Py.dict_get "action" d) as [v|]; [|discriminate].
  destruct (_parse_action v) as [a|e''] eqn:Hp; [discriminate|].
  simpl in Hkw. injection Hkw as <-. by apply (parse_action_raises v).
Qed.

Lemma load_channels_raises raw chans e :
  load_channels raw chans = Raises e -> e = ValueError.
Proof.
  revert chans. induction raw as [|[key value] raw IH]; intros chans; [discriminate|].
  simpl. destruct (_parse_action value) as [a|e'] eqn:Hp; simpl; [apply IH|].
  intros [= <-]. by apply (parse_action_raises value).
Qed.

Lemma validate_keywords_raises kws e :
  validate_keywords kws = Raises e -> e = ValueError.
Proof.
  induction kws as [|kw kws IH]; [discriminate|]. simpl.
  destruct (kw_pattern kw) as [pattern|]; [|by intros [= <-]].
  destruct (kw_action kw); [|by intros [= <-]].
  destruct pattern; try (by intros [= <-]). apply IH.
Qed.

Lemma load_channels_returns (raw : list (pyobj * pyobj))
    (chans : gmap string FilterAction) :
  returns (load_channels raw chans) <->
    forall key value, (key, value) ∈ raw -> returns (_parse_action value).
Proof.
  revert chans. induction raw as [|[key value] raw IH]; intros chans.
  { split; [|by eexists]. intros _ k v Hin. by apply elem_of_nil in Hin. }
  simpl. destruct (_parse_action value) as [a|e] eqn:Hp; simpl.
  - rewrite IH. split; intros H k v Hin.
    + apply elem_of_cons in Hin as [[= -> ->]|Hin]; [rewrite Hp; by eexists|].
      by apply (H k v).
    + apply (H k v). by right.
  - split; [by intros [? ?]|]. intros H.
    destruct (H key value) as [a Ha]; [by left | congruence].
Qed.

Lemma load_keyword_accepted entry :
  (exists kw, load_keyword entry = Returns kw /\ well_formed_keyword kw) <->
  keyword_accepted entry.
Proof.
  unfold keyword_accepted, well_formed_keyword, load_keyword. split.
  - intros (kw & Hload & p & a & Hp & Ha).
    destruct entry as [| | | | | |d]; try discriminate.
    destruct (Py.dict_get "action" d) as [value|] eqn:Hact.
    + destruct (_parse_action value) as [a'|e] eqn:Hparse; [|discriminate].
      simpl in Hload. injection Hload as <-. simpl in Hp.
      exists d, p, value. split; [done|]. split; [done|]. split; [done|].
      by exists a'.
    + injection Hload as <-. discriminate.
  - intros (d & p & value & -> & Hp & Hact & a & Hparse).
    rewrite Hact, Hparse. simpl. eexists. split; [done|]. by eauto.
Qed.

Lemma load_keywords_accepted raw :
  (exists kws, load_keywords raw [] = Returns kws /\ Forall well_formed_keyword kws) <->
  Forall keyword_accepted raw.
Proof.
  assert (H : (exists new,
                 Forall2 (fun entry kw => load_keyword entry = Returns kw) raw new /\
                 Forall well_formed_keyword new) <->
              Forall keyword_accepted raw).
  { induction raw as [|entry raw IH].
    - split; [constructor|]. intros _. exists []. by split; constructor.
    - rewrite Forall_cons, <- IH, <- load_keyword_accepted. split.
      + intros (new & Hnew & Hwf).
        apply Forall2_cons_inv_l in Hnew as (kw & new' & Hkw & Hnew' & ->).
        apply Forall_cons in Hwf as [? ?].
        split; [by exists kw | by exists new'].
      + intros [(kw & ? & ?) (new & ? & ?)]. exists (kw :: new).
        by split; constructor. }
  rewrite <- H. split.
  - intros (kws & Hload & Hwf).
    apply load_keywords_returns in Hload as (new & -> & Hnew). by exists new.
  - intros (new & Hnew & Hwf). exists new.
    split; [|done]. apply load_keywords_returns. by exists new.
Qed.

Lemma read_number_accepted v :
  (exists n, read_number (ollama_timeout default_config) v = Returns n /\
     number_le_zero n = false) <->
  timeout_accepted v.
Proof.
  unfold read_number, timeout_accepted.
  destruct v as [[| [] | z | f | | |]|]; simpl;
    try (split; [by intros (? & ? & ?) | done]).
  - split; [done|]. intros _. by eexists.
  - split; [by intros (? & [= <-] & ?) | done].
  - split.
    + intros (? & [= <-] & H). simpl in H. lia.
    + intros H. eexists. split; [done|]. simpl. lia.
  - split.
    + by intros (? & [= <-] & H).
    + intros H. by eexists.
  - split; [done|]. intros _. by eexists.
Qed.

Lemma read_int_accepted v :
  (exists z, read_int (urgency_threshold default_config) v = Returns z /\
     1 <= z <= 5) <->
  threshold_accepted v.
Proof.
  unfold read_int, threshold_accepted.
  destruct v as [[| [] | z | f | | |]|]; simpl;
    try (split; [by intros (? & ? & ?) | done]).
  - split; [done|]. intros _. eexists. split; [done|lia].
  - split; [|done]. intros (? & [= <-] & ?). lia.
  - split; [by intros (? & [= <-] & H) | intros H; by exists z].
  - split; [done|]. intros _. eexists. split; [done|]. simpl. lia.
Qed.

Lemma load_config_rules_accepted d rs :
  returns (load_config_rules d rs) <-> rules_accepted (Py.dict_get "rules" d).
Proof.
  unfold load_config_rules, rules_accepted.
  destruct (Py.dict_get "rules" d) as [[| | | | | |raw]|];
    try (split; [by intros [? ?] | done]).
  apply load_rules_returns.
Qed.

Lemma load_config_channels_accepted d chans :
  returns (load_config_channels d chans) <->
  channels_accepted (Py.dict_get "channels" d).
Proof.
  unfold load_config_channels, channels_accepted.
  destruct (Py.dict_get "channels" d) as [[| | | | | |raw]|];
    try (split; [by intros [? ?] | done]).
  apply load_channels_returns.
Qed.

Lemma load_config_keywords_accepted d :
  (exists kws, load_config_keywords d [] = Returns kws /\
     Forall well_formed_keyword kws) <->
  keywords_accepted (Py.dict_get "keywords" d).
Proof.
  unfold load_config_keywords, keywords_accepted.
  destruct (Py.dict_get "keywords" d) as [[| | | | |raw|]|];
    try (split; [by intros (? & ? & ?) | done]).
  - apply load_keywords_accepted.
  - split; [done|]. intros _. exists []. by split; [|constructor].
Qed.

(** load_config accepts a file that holds a mapping exactly when
    - "ollama_timeout" is absent, or is an int (a bool is one) or a
      float for which [<= 0] is false: a positive number, or a NaN;
    - "urgency_threshold" is absent, or is an int (a bool is one) from 1
      to 5: a float is rejected whatever its value;
    - "rules" is absent, or is a mapping whose entries under the five
      rule names carry actions that parse;
    - "channels" is absent, or is a mapping whose entries all carry
      actions that parse;
    - "keywords" is absent, or is a list of mappings that each have a
      text under "pattern" and an action that parses under "action".
    No other key of the file has a say. *)
Theorem load_config_accepts_iff (env : Env) (d : list (pyobj * pyobj)) :
  returns (load_config_structured env (PDict d)) <->
    timeout_accepted (Py.dict_get "ollama_timeout" d) /\
    threshold_accepted (Py.dict_get "urgency_threshold" d) /\
    rules_accepted (Py.dict_get "rules" d) /\
    channels_accepted (Py.dict_get "channels" d) /\
    keywords_accepted (Py.dict_get "keywords" d).
Proof.
  rewrite <- read_number_accepted, <- read_int_accepted,
    <- (load_config_rules_accepted d DEFAULT_RULES),
    <- (load_config_channels_accepted d ∅), <- load_config_keywords_accepted.
  unfold load_config_structured. split.
  - intros [config H].
    destruct (read_number _ _) as [timeout|e]; [|discriminate]. simpl in H.
    destruct (read_int _ _) as [threshold|e]; [|discriminate]. simpl in H.
    destruct (load_config_rules d DEFAULT_RULES) as [rs|e]; [|discriminate].
    simpl in H.
    destruct (load_config_channels d ∅) as [chans|e]; [|discriminate]. simpl in H.
    destruct (load_config_keywords d []) as [kws|e]; [|discriminate].
    simpl in H.
    match type of H with
    | (_validate_config ?c ≫= _) = _ =>
        destruct (_validate_config c) as [[]|e] eqn:Hv; [|discriminate]
    end.
    apply _validate_config_returns in Hv as (Ht & Hn & Hk). simpl in Ht, Hn, Hk.
    split; [by eauto|]. split; [by eauto|].
    split; [by eexists|]. split; [by eexists|]. by eauto.
  - intros ((timeout & -> & Hn) & (threshold & -> & Ht) & [rs ->] & [chans ->] &
            (kws & -> & Hk)).
    simpl.
    match goal with
    | |- returns (_validate_config ?c ≫= _) =>
        assert (Hv : _validate_config c = Returns tt)
          by by apply _validate_config_returns
    end.
    rewrite Hv. by eexists.
Qed.

(** Loading never fails with anything but a ValueError, the exception
    main reports as an invalid configuration.  An empty file loads like
    an empty mapping, to the default configuration; a file that holds
    anything but a mapping is rejected. *)
Theorem load_config_structured_errors (env : Env) :
  (forall raw e, load_config_structured env raw = Raises e -> e = ValueError) /\
  load_config_structured env PNone = Returns default_config /\
  load_config_structured env (PDict []) = Returns default_config /\
  (forall raw, raw <> PNone -> (forall d, raw <> PDict d) ->
     load_config_structured env raw = Raises ValueError).
Proof.
  split; [|split; [reflexivity | split; [reflexivity|]]].
  - intros raw e. unfold load_config_structured.
    destruct (match raw with PNone => PDict [] | _ => raw end) as [| | | | | |d];
      try (by intros [= <-]).
    destruct (read_number _ _) as [timeout|e1] eqn:H1; simpl.
    2:{ intros [= <-]. unfold read_number in H1.
        destruct (Py.dict_get "ollama_timeout" d) as [[]|]; solve_raises H1. }
    destruct (read_int _ _) as [threshold|e2] eqn:H2; simpl.
    2:{ intros [= <-]. unfold read_int in H2.
        destruct (Py.dict_get "urgency_threshold" d) as [[]|]; solve_raises H2. }
    destruct (load_config_rules d DEFAULT_RULES) as [rs|e3] eqn:H3; simpl.
    2:{ intros [= <-]. unfold load_config_rules in H3.
        destruct (Py.dict_get "rules" d) as [[]|]; try solve_raises H3.
        by apply (load_rules_raises _ _ _ H3). }
    destruct (load_config_channels d ∅) as [chans|e4] eqn:H4; simpl.
    2:{ intros [= <-]. unfold load_config_channels in H4.
        destruct (Py.dict_get "channels" d) as [[]|]; try solve_raises H4.
        by apply (load_channels_raises _ _ _ H4). }
    destruct (load_config_keywords d []) as [kws|e5] eqn:H5; simpl.
    2:{ intros [= <-]. unfold load_config_keywords in H5.
        destruct (Py.dict_get "keywords" d) as [[]|]; try solve_raises H5.
        by apply (load_keywords_raises _ _ _ H5). }
    match goal with
    | |- (_validate_config ?c ≫= _) = _ -> _ =>
        destruct (_validate_config c) as [[]|e6] eqn:H6; simpl; [discriminate|]
    end.
    intros [= <-]. unfold _validate_config in H6.
    destruct (negb _); [by injection H6 as <-|].
    destruct (number_le_zero _); [by injection H6 as <-|].
    by apply (validate_keywords_raises _ _ H6).
  - intros raw Hnone Hdict. unfold load_config_structured.
    destruct raw; try done. by destruct (Hdict d).
Qed.

(** ** llm_classifier.py *)

Lemma getitem_raises obj k e :
  Py.getitem obj k = Raises e -> e = KeyError \/ e = TypeError.
Proof.
  unfold Py.getitem. destruct obj; try (intros [= <-]; by right).
  destruct (Py.dict_get k d); [discriminate | intros [= <-]; by left].
Qed.

(** What the [try] block of classify can raise. *)
Lemma classify_try_raises env msg config e :
  classify_try env msg config = Raises e ->
  requests_post env (ollama_url config +:+ "/api/chat") (chat_request msg config)
    (ollama_timeout config) = Raises e \/
  (exists resp,
     requests_post env (ollama_url config +:+ "/api/chat") (chat_request msg config)
       (ollama_timeout config) = Returns resp /\
     (400 <=? status_code resp) && (status_code resp <? 600) = true /\
     e = RequestsHTTPError) \/
  e = OverflowError \/
  isinstance e except_parsing = true \/
  (exists s, json_decode env s = Raises e).
Proof.
  unfold classify_try.
  destruct (requests_post _ _ _ _) as [resp|e0]; simpl; [|intros [= <-]; by left].
  unfold raise_for_status.
  destruct (_ && _) eqn:Hstatus; simpl;
    [intros [= <-]; right; left; by exists resp|].
  unfold response_json.
  destruct (json_decode env (resp_text resp)) as [data|e0] eqn:H0; simpl.
  2:{ intros [= <-]. do 3 right.
      destruct (decide (e0 = JSONDecodeError)) as [->|He0]; [by left|].
      right. rewrite bool_decide_false by done. by exists (resp_text resp). }
  destruct (Py.getitem data "message") as [message|e1] eqn:H1; simpl;
    [|intros [= <-]; destruct (getitem_raises _ _ _ H1) as [->| ->];
      do 3 right; by left].
  destruct (Py.getitem message "content") as [raw_content|e2] eqn:H2; simpl;
    [|intros [= <-]; destruct (getitem_raises _ _ _ H2) as [->| ->];
      do 3 right; by left].
  destruct (json_loads env raw_content) as [content|e3] eqn:H3; simpl.
  2:{ intros [= <-]. unfold json_loads in H3.
      destruct raw_content; try (injection H3 as <-; do 3 right; by left).
      do 4 right. by exists s. }
  destruct (Py.getitem content "urgency") as [raw_urgency|e4] eqn:H4; simpl;
    [|intros [= <-]; destruct (getitem_raises _ _ _ H4) as [->| ->];
      do 3 right; by left].
  destruct (py_int env raw_urgency) as [u|e5] eqn:H5; simpl.
  2:{ intros [= <-]. unfold py_int in H5.
      destruct raw_urgency; try discriminate;
        try (injection H5 as <-; do 3 right; by left).
      - destruct f; try discriminate.
        + injection H5 as <-. right; right; by left.
        + injection H5 as <-. do 3 right; by left.
      - destruct (int_of_text env s); [discriminate|].
        injection H5 as <-. do 3 right; by left. }
  destruct (Py.getitem content "reason") as [raw_reason|e6] eqn:H6; simpl;
    [discriminate|].
  intros [= <-]. destruct (getitem_raises _ _ _ H6) as [->| ->];
    do 3 right; by left.
Qed.

(** The only exceptions that leave classify are those no except
    clause catches (neither a connection error nor a timeout, nor a
    KeyError, TypeError or ValueError) among: an exception of
    requests.post, the HTTPError of raise_for_status, the OverflowError
    of [int] on an infinite urgency, and an exception the JSON decoder
    raises on the body or on the content, such as the RecursionError of
    a document nested too deeply.  Every other failure of the call or of
    reading the reply is absorbed. *)
Theorem classify_escapes (env : Env) (msg : SlackMessage) (config : Config)
    (e : exn) :
  classify env msg config = Raises e ->
  isinstance e except_network = false /\
  isinstance e except_parsing = false /\
  (requests_post env (ollama_url config +:+ "/api/chat") (chat_request msg config)
     (ollama_timeout config) = Raises e \/
   e = RequestsHTTPError \/ e = OverflowError \/
   exists s, json_decode env s = Raises e).
Proof.
  unfold classify.
  destruct (classify_try env msg config) as [[u r]|e0] eqn:Htry; [discriminate|].
  destruct (isinstance e0 except_network) eqn:Hn; [discriminate|].
  destruct (isinstance e0 except_parsing) eqn:Hp; [discriminate|].
  intros [= <-]. split; [done | split; [done|]].
  destruct (classify_try_raises _ _ _ _ Htry)
    as [H|[(resp & _ & _ & H)|[H|[H|H]]]]; auto. congruence.
Qed.

Lemma classify_escapes_witness :
  (isinstance RequestsHTTPError except_network = false /\
   isinstance RequestsHTTPError except_parsing = false /\
   (requests_post Fragment.env_http_500
      (ollama_url default_config +:+ "/api/chat")
      (chat_request (make_msg "production down") default_config)
      (ollama_timeout default_config) = Raises RequestsHTTPError \/
    RequestsHTTPError = RequestsHTTPError \/ RequestsHTTPError = OverflowError \/
    exists s, json_decode Fragment.env_http_500 s = Raises RequestsHTTPError)) /\
  (isinstance RecursionError except_network = false /\
   isinstance RecursionError except_parsing = false /\
   (requests_post Fragment.env_deeply_nested
      (ollama_url default_config +:+ "/api/chat")
      (chat_request (make_msg "production down") default_config)
      (ollama_timeout default_config) = Raises RecursionError \/
    RecursionError = RequestsHTTPError \/ RecursionError = OverflowError \/
    exists s, json_decode Fragment.env_deeply_nested s = Raises RecursionError)).
Proof.
  split.
  - exact (classify_escapes Fragment.env_http_500 (make_msg "production down")
             default_config RequestsHTTPError eq_refl).
  - exact (classify_escapes Fragment.env_deeply_nested (make_msg "production down")
             default_config RecursionError eq_refl).
Defined.



(** With a validated configuration every classification classify returns
    has its urgency in 1..5, whether it comes from the model (clamped) or
    from the fallback (the threshold). *)
Theorem classify_urgency_in_range (env : Env) (msg : SlackMessage) (config : Config)
    (c : Classification) :
  _validate_config config = Returns tt ->
  classify env msg config = Returns c ->
  1 <= urgency c <= 5.
Proof.
  intros Hv Hc.
  assert (Hthr : 1 <= urgency_threshold config <= 5).
  { unfold _validate_config in Hv.
    destruct (1 <=? urgency_threshold config) eqn:Hlo;
      destruct (urgency_threshold config <=? 5) eqn:Hhi; try discriminate. lia. }
  unfold classify in Hc.
  destruct (classify_try env msg config) as [[u r]|e].
  - injection Hc as <-. simpl. lia.
  - destruct (isinstance e except_network); [by injection Hc as <-|].
    destruct (isinstance e except_parsing); [by injection Hc as <-|discriminate].
Qed.

Lemma classify_urgency_in_range_witness :
  1 <= urgency {| urgency := 5; reason := "off the charts" |} <= 5.
Proof.
  exact (classify_urgency_in_range (Fragment.env_reply (PInt 7) "off the charts")
           (make_msg "hello world") default_config
           {| urgency := 5; reason := "off the charts" |} eq_refl eq_refl).
Defined.

(** ** notifier.py *)





(** A notification sent on the CLASSIFY path carries a level that fits
    the threshold: its urgency is at least the threshold, so with a
    threshold of 3 or more the level is never "low", and with a threshold
    of 4 or more it is "critical". *)
Theorem classified_notification_level (env : Env) (msg : SlackMessage)
    (config : Config) (bot_user_id : string) (r : FilterResult)
    (c : Classification) (cmd : list string) :
  pre_filter env msg config bot_user_id = Returns r ->
  action r = CLASSIFY ->
  classify env msg config = Returns c ->
  handle_message env (Some msg) config bot_user_id = Returns [cmd] ->
  urgency_threshold config <= urgency c /\
  cmd !! 1%nat = Some ("--urgency=" +:+ _urgency_level (Some (urgency c))) /\
  (3 <= urgency_threshold config -> _urgency_level (Some (urgency c)) <> "low") /\
  (4 <= urgency_threshold config -> _urgency_level (Some (urgency c)) = "critical").
Proof.
  intros Hr Ha Hc Hh.
  rewrite (handle_message_classify _ _ _ _ _ _ Hr Ha Hc) in Hh.
  destruct (urgency_threshold config <=? urgency c) eqn:Hle; [|discriminate].
  apply Z.leb_le in Hle. injection Hh as <-.
  split; [done | split; [reflexivity|]].
  unfold _urgency_level. split; intros Ht.
  - destruct (urgency c <=? 2) eqn:H2; [lia|]. by destruct (urgency c <=? 3).
  - destruct (urgency c <=? 2) eqn:H2; [lia|].
    destruct (urgency c <=? 3) eqn:H3; [lia | done].
Qed.

Lemma classified_notification_level_witness :
  urgency_threshold default_config <= 4 /\
  notify (make_msg "hello world") "deploy is broken" (Some 4) default_config !! 1%nat
    = Some ("--urgency=" +:+ _urgency_level (Some 4)) /\
  (3 <= urgency_threshold default_config -> _urgency_level (Some 4) <> "low") /\
  (4 <= urgency_threshold default_config -> _urgency_level (Some 4) = "critical").
Proof.
  exact (classified_notification_level (Fragment.env_reply (PInt 4) "deploy is broken")
           (make_msg "hello world") default_config "U_BOT"
           {| action := CLASSIFY; rule := "default" |}
           {| urgency := 4; reason := "deploy is broken" |}
           (notify (make_msg "hello world") "deploy is broken" (Some 4) default_config)
           eq_refl eq_refl eq_refl eq_refl).
Defined.

(** ** main.py *)

Lemma keyword_loop_re_search env env' kws msg_text :
  re_search env' = re_search env ->
  str_lower env' = str_lower env ->
  keyword_loop env' kws msg_text = keyword_loop env kws msg_text.
Proof.
  intros Hre Hlow. induction kws as [|kw kws IH]; [done|]. simpl. rewrite IH.
  unfold keyword_matches, py_lower. by rewrite Hre, Hlow.
Qed.

Lemma pre_filter_re_search env env' msg config bot_user_id :
  re_search env' = re_search env ->
  str_lower env' = str_lower env ->
  pre_filter env' msg config bot_user_id = pre_filter env msg config bot_user_id.
Proof.
  intros Hre Hlow. unfold pre_filter.
  by rewrite (keyword_loop_re_search env env').
Qed.

(** handle_message sends at most one notification per message, and none
    for an event the listener dropped. *)
Theorem at_most_one_notification (env : Env) (parsed : option SlackMessage)
    (config : Config) (bot_user_id : string) (cmds : list (list string)) :
  handle_message env parsed config bot_user_id = Returns cmds ->
  (length cmds <= 1)%nat /\ (parsed = None -> cmds = []).
Proof.
  unfold handle_message. destruct parsed as [msg|].
  2:{ intros [= <-]. split; [simpl; lia | done]. }
  intros H. split; [|discriminate].
  destruct (pre_filter env msg config bot_user_id) as [r|e]; [|discriminate].
  simpl in H.
  case_bool_decide; [injection H as <-; simpl; lia|].
  case_bool_decide; [injection H as <-; simpl; lia|].
  destruct (classify env msg config) as [c|e]; [|discriminate]. simpl in H.
  destruct (_ <=? _); injection H as <-; simpl; lia.
Qed.

Lemma at_most_one_notification_witness :
  Nat.le
    (length [notify (make_msg "hello world") "deploy is broken" (Some 4) default_config])
    1 /\
  (Some (make_msg "hello world") = None ->
   [notify (make_msg "hello world") "deploy is broken" (Some 4) default_config] = []).
Proof.
  exact (at_most_one_notification (Fragment.env_reply (PInt 4) "deploy is broken")
           (Some (make_msg "hello world")) default_config "U_BOT" _ eq_refl).
Defined.

(** The classifier is consulted on the CLASSIFY path only: when the
    decision is SKIP or FORCE_NOTIFY, what handle_message does is the same
    whatever the network and the decoders would answer (the two
    environments share what the filter reads, the regex engine and
    [lower]); it sends nothing on SKIP and one notification without a
    score, giving the rule as its reason, on FORCE_NOTIFY. *)
Theorem classifier_only_on_classify_path (env env' : Env) (msg : SlackMessage)
    (config : Config) (bot_user_id : string) (r : FilterResult) :
  re_search env' = re_search env ->
  str_lower env' = str_lower env ->
  pre_filter env msg config bot_user_id = Returns r ->
  action r <> CLASSIFY ->
  handle_message env' (Some msg) config bot_user_id =
    handle_message env (Some msg) config bot_user_id /\
  handle_message env (Some msg) config bot_user_id =
    Returns (if bool_decide (action r = SKIP) then []
             else [notify msg ("Matched rule: " +:+ rule r) None config]).
Proof.
  intros Hre Hlow Hr Ha.
  assert (H : forall env0, pre_filter env0 msg config bot_user_id = Returns r ->
    handle_message env0 (Some msg) config bot_user_id =
      Returns (if bool_decide (action r = SKIP) then []
               else [notify msg ("Matched rule: " +:+ rule r) None config])).
  { intros env0 H0. unfold handle_message. rewrite H0. simpl.
    case_bool_decide; [done|].
    case_bool_decide; [done|]. by destruct (action r). }
  rewrite (H env Hr). split; [|done].
  apply H. by rewrite (pre_filter_re_search env env').
Qed.

Lemma classifier_only_on_classify_path_witness :
  handle_message Fragment.env_http_500
    (Some {| channel := "DM"; channel_id := "D1"; sender := "alice";
             sender_id := "U_ALICE"; text := "ping"; thread_ts := None;
             is_dm := true; is_mention := false; is_bot := false |})
    default_config "U_BOT"
  = handle_message Fragment.env_refused
      (Some {| channel := "DM"; channel_id := "D1"; sender := "alice";
               sender_id := "U_ALICE"; text := "ping"; thread_ts := None;
               is_dm := true; is_mention := false; is_bot := false |})
      default_config "U_BOT".
Proof.
  apply (classifier_only_on_classify_path Fragment.env_refused Fragment.env_http_500
           {| channel := "DM"; channel_id := "D1"; sender := "alice";
              sender_id := "U_ALICE"; text := "ping"; thread_ts := None;
              is_dm := true; is_mention := false; is_bot := false |}
           default_config "U_BOT" {| action := FORCE_NOTIFY; rule := "dms" |});
    [reflexivity | reflexivity | reflexivity | discriminate].
Defined.


(** ** slack_listener.py *)

Section deque.
Context (maxlen : nat) (x : string) (d : list string).

Lemma deque_append_length :
  length (deque_append maxlen x d) = Nat.min maxlen (S (length d)).
Proof. unfold deque_append. rewrite length_drop, length_app. simpl. lia. Qed.

Lemma deque_append_elem_of y :
  y ∈ deque_append maxlen x d -> y ∈ d \/ y = x.
Proof.
  unfold deque_append. intros H.
  apply (elem_of_sublist _ (d ++ [x])) in H; [|apply sublist_drop].
  apply elem_of_app in H as [H|H]; [by left|].
  right. by apply list_elem_of_singleton in H.
Qed.

Lemma deque_append_last : (0 < maxlen)%nat -> x ∈ deque_append maxlen x d.
Proof.
  intros H. unfold deque_append.
  rewrite drop_app_le by (rewrite length_app; simpl; lia).
  apply elem_of_app. right. by apply list_elem_of_singleton.
Qed.

Lemma deque_append_not_full :
  (length d < maxlen)%nat -> deque_append maxlen x d = d ++ [x].
Proof.
  intros H. unfold deque_append.
  replace (length (d ++ [x]) - maxlen)%nat with 0%nat; [done|].
  rewrite length_app. simpl. lia.
Qed.

Lemma deque_append_NoDup : NoDup d -> x ∉ d -> NoDup (deque_append maxlen x d).
Proof.
  intros Hd Hx. unfold deque_append.
  apply (sublist_NoDup _ (d ++ [x])); [|apply sublist_drop].
  apply NoDup_app. split; [done | split].
  - intros y Hy Hy'. apply list_elem_of_singleton in Hy'. by subst.
  - apply NoDup_singleton.
Qed.

End deque.

Lemma deque_append_full maxlen x old rest :
  length (old :: rest) = maxlen ->
  deque_append maxlen x (old :: rest) = rest ++ [x].
Proof.
  intros H. unfold deque_append.
  replace (length ((old :: rest) ++ [x]) - maxlen)%nat with 1%nat; [done|].
  rewrite length_app. simpl in *. lia.
Qed.

(** What the two resolutions leave alone. *)
Lemma _resolve_channel_frame client self channel_id event :
  let self' := snd (_resolve_channel client self channel_id event) in
  _bot_user_id self' = _bot_user_id self /\
  _seen_events self' = _seen_events self /\
  _user_cache self' = _user_cache self.
Proof.
  unfold _resolve_channel.
  destruct (_channel_cache self !! channel_id); [done|].
  by destruct (is_dm_type _).
Qed.

Lemma _resolve_user_frame client self user_id :
  let self' := snd (_resolve_user client self user_id) in
  _bot_user_id self' = _bot_user_id self /\
  _seen_events self' = _seen_events self /\
  _channel_cache self' = _channel_cache self.
Proof. unfold _resolve_user. by destruct (_user_cache self !! user_id). Qed.

(** The ways through parse_event. *)
Lemma parse_event_inv client self event r self' :
  parse_event client self event = (r, self') ->
  (event_id_of event = None /\ r = None /\ self' = self) \/
  (exists event_id, event_id_of event = Some event_id /\
     event_id ∈ _seen_events self /\ r = None /\ self' = self) \/
  (exists event_id, event_id_of event = Some event_id /\
     (event_id ∉ _seen_events self) /\
     (let seen := set_seen_events
                   (deque_append SEEN_MAXLEN event_id (_seen_events self)) self in
     (r = None /\ self' = seen /\
      (ignored_subtype event = true \/ truthy (event !! "channel") = false \/
       sender_id_of event = None)) \/
     (exists channel_id sender_id,
        ignored_subtype event = false /\
        event !! "channel" = Some channel_id /\ channel_id <> EmptyString /\
        sender_id_of event = Some sender_id /\
        let resolved := _resolve_channel client seen channel_id event in
        let resolved' := _resolve_user client (snd resolved) sender_id in
        r = Some (build_message (_bot_user_id self) event (fst resolved) channel_id
                    (fst resolved') sender_id) /\
        self' = snd resolved'))).
Proof.
  unfold parse_event.
  destruct (event_id_of event) as [event_id|]; [|intros [= <- <-]; by left].
  case_bool_decide as Hseen; [intros [= <- <-]; right; left; by exists event_id|].
  intros H. right; right. exists event_id. split; [done | split; [done|]].
  cbv zeta.
  destruct (ignored_subtype event) eqn:Hsub;
    [injection H as <- <-; left; auto|].
  destruct (event !! "channel") as [[|c0 cs]|] eqn:Hch;
    [injection H as <- <-; left; auto | | injection H as <- <-; left; auto].
  destruct (sender_id_of event) as [sender_id|] eqn:Hsid;
    [|injection H as <- <-; left; auto].
  right. exists (String c0 cs), sender_id.
  destruct (_resolve_channel _ _ _ _) as [channel_name self1] eqn:Hrc.
  destruct (_resolve_user _ _ _) as [sender_name self2] eqn:Hru.
  injection H as <- <-.
  repeat split; try done. simpl.
  pose proof (_resolve_channel_frame client
                (set_seen_events (deque_append SEEN_MAXLEN event_id (_seen_events self)) self)
                (String c0 cs) event) as (Hb1 & _ & _).
  pose proof (_resolve_user_frame client self1 sender_id) as (Hb2 & _ & _).
  rewrite Hrc in Hb1. rewrite Hru in Hb2. simpl in Hb1, Hb2.
  by rewrite Hb2, Hb1.
Qed.

(** The deque of seen events after parse_event. *)
Lemma parse_event_seen client self event :
  _seen_events (snd (parse_event client self event)) =
    match event_id_of event with
    | None => _seen_events self
    | Some event_id =>
        if bool_decide (event_id ∈ _seen_events self) then _seen_events self
        else deque_append SEEN_MAXLEN event_id (_seen_events self)
    end.
Proof.
  destruct (parse_event client self event) as [r self'] eqn:H.
  apply parse_event_inv in H
    as [(-> & _ & ->)|[(id & -> & Hin & _ & ->)|(id & -> & Hin & H)]]; simpl.
  - done.
  - by rewrite bool_decide_true.
  - rewrite bool_decide_false by done. cbv zeta in H.
    destruct H as [(_ & -> & _)|(cid & sid & _ & _ & _ & _ & _ & ->)]; [done|].
    set (seen := set_seen_events _ self).
    pose proof (_resolve_user_frame client
                  (snd (_resolve_channel client seen cid event)) sid) as (_ & -> & _).
    by pose proof (_resolve_channel_frame client seen cid event) as (_ & -> & _).
Qed.

Lemma parse_event_records_id client self event event_id :
  event_id_of event = Some event_id ->
  event_id ∈ _seen_events (snd (parse_event client self event)).
Proof.
  intros Hid. rewrite parse_event_seen, Hid.
  case_bool_decide; [done|].
  apply deque_append_last. unfold SEEN_MAXLEN. lia.
Qed.

Lemma parse_event_duplicate client self event event_id :
  event_id_of event = Some event_id ->
  event_id ∈ _seen_events self ->
  parse_event client self event = (None, self).
Proof.
  intros Hid Hin. unfold parse_event. rewrite Hid. by rewrite bool_decide_true.
Qed.

(** An event delivered again is dropped: once parse_event has seen an
    event that carries an identifier, whether it kept it or dropped it,
    the next event with that identifier yields no message and leaves the
    listener as it is, whatever the client answers; handled through the
    pipeline, it sends no notification. *)
Theorem redelivered_event_dropped (env : Env) (client client' : SlackClient)
    (listener : SlackListener) (event event' : gmap string string)
    (event_id : string) (config : Config) (bot_user_id : string) :
  event_id_of event = Some event_id ->
  event_id_of event' = Some event_id ->
  parse_event client' (snd (parse_event client listener event)) event' =
    (None, snd (parse_event client listener event)) /\
  handle_event env client'
    (snd (handle_event env client listener event config bot_user_id))
    event' config bot_user_id =
    (Returns [], snd (parse_event client listener event)).
Proof.
  intros Hid Hid'.
  assert (H : parse_event client' (snd (parse_event client listener event)) event' =
              (None, snd (parse_event client listener event))).
  { apply (parse_event_duplicate _ _ _ event_id); [done|].
    by apply parse_event_records_id. }
  split; [done|]. unfold handle_event.
  destruct (parse_event client listener event) as [r listener1]. simpl in *.
  by rewrite H.
Qed.

Lemma redelivered_event_dropped_witness :
  parse_event failing_client (snd (parse_event make_client make_listener make_event))
    (<["text" := "hello again"]> make_event) =
    (None, snd (parse_event make_client make_listener make_event)) /\
  handle_event Fragment.env_refused failing_client
    (snd (handle_event Fragment.env_refused make_client make_listener make_event
            default_config "U_BOT_123"))
    (<["text" := "hello again"]> make_event) default_config "U_BOT_123" =
    (Returns [], snd (parse_event make_client make_listener make_event)).
Proof.
  apply (redelivered_event_dropped Fragment.env_refused make_client failing_client
           make_listener make_event (<["text" := "hello again"]> make_event)
           "1700000000.000001" default_config "U_BOT_123"); reflexivity.
Defined.

(** The deque of seen identifiers stays within its bound of 1000 and
    never holds an identifier twice; parse_event never changes the
    identity of the bot. *)
Theorem seen_events_stay_bounded (client : SlackClient) (listener : SlackListener)
    (event : gmap string string) :
  (length (_seen_events listener) <= SEEN_MAXLEN)%nat ->
  NoDup (_seen_events listener) ->
  (length (_seen_events (snd (parse_event client listener event))) <= SEEN_MAXLEN)%nat /\
  NoDup (_seen_events (snd (parse_event client listener event))) /\
  _bot_user_id (snd (parse_event client listener event)) = _bot_user_id listener.
Proof.
  intros Hlen Hnd. rewrite parse_event_seen. split; [|split].
  - destruct (event_id_of event) as [id|]; [|done].
    case_bool_decide; [done|]. rewrite deque_append_length. lia.
  - destruct (event_id_of event) as [id|]; [|done].
    case_bool_decide; [done|]. by apply deque_append_NoDup.
  - destruct (parse_event client listener event) as [r self'] eqn:H.
    apply parse_event_inv in H
      as [(_ & _ & ->)|[(id & _ & _ & _ & ->)|(id & _ & Hin & H)]]; [done | done|].
    cbv zeta in H.
    destruct H as [(_ & -> & _)|(cid & sid & _ & _ & _ & _ & _ & ->)]; [done|].
    simpl.
    set (seen := set_seen_events _ listener).
    pose proof (_resolve_user_frame client
                  (snd (_resolve_channel client seen cid event)) sid) as (-> & _ & _).
    by pose proof (_resolve_channel_frame client seen cid event) as (-> & _ & _).
Qed.

Lemma seen_events_stay_bounded_witness :
  (length (_seen_events (snd (parse_event make_client make_listener make_event)))
     <= SEEN_MAXLEN)%nat /\
  NoDup (_seen_events (snd (parse_event make_client make_listener make_event))) /\
  _bot_user_id (snd (parse_event make_client make_listener make_event)) = "U_BOT_123".
Proof.
  apply (seen_events_stay_bounded make_client make_listener make_event).
  - simpl. unfold SEEN_MAXLEN. lia.
  - constructor.
Defined.

(** The duplicate window is the last 1000 identifiers: when the deque is
    full, recording a new identifier forgets the oldest one, so an event
    carrying the forgotten identifier is no longer taken for a duplicate. *)
Theorem oldest_event_forgotten (client : SlackClient) (listener : SlackListener)
    (event : gmap string string) (event_id old : string) (rest : list string) :
  _seen_events listener = old :: rest ->
  length (old :: rest) = SEEN_MAXLEN ->
  old ∉ rest ->
  event_id_of event = Some event_id ->
  event_id ∉ old :: rest ->
  _seen_events (snd (parse_event client listener event)) = rest ++ [event_id] /\
  old ∉ _seen_events (snd (parse_event client listener event)).
Proof.
  intros Hseen Hlen Hold Hid Hfresh.
  rewrite parse_event_seen, Hid, Hseen.
  rewrite bool_decide_false by done.
  rewrite (deque_append_full _ _ _ _ Hlen). split; [done|].
  intros Hin. apply elem_of_app in Hin as [Hin|Hin]; [done|].
  apply list_elem_of_singleton in Hin. subst. apply Hfresh. by left.
Qed.

Lemma oldest_event_forgotten_witness :
  _seen_events (snd (parse_event make_client full_listener make_event)) =
    seen_from 1 999 ++ ["1700000000.000001"] /\
  "ev0" ∉ _seen_events (snd (parse_event make_client full_listener make_event)).
Proof.
  apply (oldest_event_forgotten make_client full_listener make_event
           "1700000000.000001" "ev0" (seen_from 1 999)).
  - reflexivity.
  - vm_compute. reflexivity.
  - decide_by_compute.
  - reflexivity.
  - decide_by_compute.
Defined.

(** parse_event drops an event exactly when it has no identifier, its
    identifier was seen, its subtype is an ignored one, it has no channel
    (or an empty one), or it has no sender (no user, and nothing that
    marks it as coming from a bot).  A dropped event leaves both name
    caches as they were. *)
Theorem parse_event_drops_iff (client : SlackClient) (listener : SlackListener)
    (event : gmap string string) :
  (fst (parse_event client listener event) = None <->
     event_id_of event = None \/
     (exists event_id, event_id_of event = Some event_id /\
        event_id ∈ _seen_events listener) \/
     ignored_subtype event = true \/
     truthy (event !! "channel") = false \/
     sender_id_of event = None) /\
  (fst (parse_event client listener event) = None ->
     _channel_cache (snd (parse_event client listener event)) = _channel_cache listener /\
     _user_cache (snd (parse_event client listener event)) = _user_cache listener).
Proof.
  split.
  - split.
    + destruct (parse_event client listener event) as [r self'] eqn:H. simpl.
      intros ->.
      apply parse_event_inv in H
        as [(? & _)|[(id & ? & ? & _)|(id & _ & _ & H)]]; [by left | right; left; eauto|].
      cbv zeta in H.
      destruct H as [(_ & _ & [?|[?|?]])|(? & ? & _ & _ & _ & _ & ? & _)];
        [tauto | tauto | tauto | discriminate].
    + unfold parse_event.
      destruct (event_id_of event) as [id|] eqn:Hid; [|done].
      case_bool_decide as Hseen; [done|].
      destruct (ignored_subtype event); [done|].
      destruct (event !! "channel") as [[|c0 cs]|]; [done | | done].
      destruct (sender_id_of event) as [sid|]; [|done].
      intros [?|[(id' & [= <-] & ?)|[?|[?|?]]]]; done.
  - destruct (parse_event client listener event) as [r self'] eqn:H. simpl.
    intros ->.
    apply parse_event_inv in H
      as [(_ & _ & ->)|[(id & _ & _ & _ & ->)|(id & _ & _ & H)]]; [done | done|].
    cbv zeta in H.
    by destruct H as [(_ & -> & _)|(? & ? & _ & _ & _ & _ & ? & _)].
Qed.

(** The identity of a parsed message comes from the event: its channel
    identifier is the event's "channel" and is never empty; its sender
    identifier is the event's "user" when there is one (then it is not
    empty), and otherwise the message is flagged as a bot's and its
    sender is the event's "bot_id", or "unknown_bot" when the event has
    none.  The text is the event's, empty when the event has none, and
    the mention flag says whether it contains the bot's own mention. *)
Theorem parsed_message_identity (client : SlackClient) (listener listener' : SlackListener)
    (event : gmap string string) (msg : SlackMessage) :
  parse_event client listener event = (Some msg, listener') ->
  event !! "channel" = Some (channel_id msg) /\
  channel_id msg <> EmptyString /\
  (truthy (event !! "user") = true ->
     event !! "user" = Some (sender_id msg) /\ sender_id msg <> EmptyString) /\
  (truthy (event !! "user") = false ->
     is_bot msg = true /\
     sender_id msg = default "unknown_bot" (event !! "bot_id")) /\
  text msg = default EmptyString (event !! "text") /\
  is_mention msg =
    Str.contains ("<@" +:+ _bot_user_id listener +:+ ">") (text msg).
Proof.
  intros H.
  apply parse_event_inv in H
    as [(_ & ? & _)|[(id & _ & _ & ? & _)|(id & _ & _ & H)]]; [done | done|].
  cbv zeta in H.
  destruct H as [(? & _)|(cid & sid & _ & Hch & Hne & Hsid & [= ->] & _)]; [done|].
  simpl. split; [done | split; [done|]].
  unfold sender_id_of in Hsid.
  destruct (truthy (event !! "user")) eqn:Huser.
  - split; [|split; [done | by split]].
    intros _. split; [done|]. rewrite Hsid in Huser. by destruct sid.
  - split; [done|].
    destruct (from_bot event) eqn:Hbot; [|done]. injection Hsid as <-.
    split; [done | by split].
Qed.

Lemma parsed_message_identity_witness :
  (<["subtype" := "bot_message"]> (delete "user" make_event)) !! "channel"
    = Some "C_CHAN_1" /\
  "C_CHAN_1" <> EmptyString /\
  (truthy ((<["subtype" := "bot_message"]> (delete "user" make_event)) !! "user") = true ->
     (<["subtype" := "bot_message"]> (delete "user" make_event)) !! "user"
       = Some "unknown_bot" /\ "unknown_bot" <> EmptyString) /\
  (truthy ((<["subtype" := "bot_message"]> (delete "user" make_event)) !! "user") = false ->
     true = true /\
     "unknown_bot" =
       default "unknown_bot"
         ((<["subtype" := "bot_message"]> (delete "user" make_event)) !! "bot_id")) /\
  "hello world" =
    default EmptyString
      ((<["subtype" := "bot_message"]> (delete "user" make_event)) !! "text") /\
  false = Str.contains ("<@" +:+ "U_BOT_123" +:+ ">") "hello world".
Proof.
  exact (parsed_message_identity failing_client make_listener _
           (<["subtype" := "bot_message"]> (delete "user" make_event)) _ eq_refl).
Defined.

Lemma _resolve_channel_hit client self channel_id event name :
  _channel_cache self !! channel_id = Some name ->
  _resolve_channel client self channel_id event = (name, self).
Proof. unfold _resolve_channel. by intros ->. Qed.

Lemma _resolve_user_hit client self user_id name :
  _user_cache self !! user_id = Some name ->
  _resolve_user client self user_id = (name, self).
Proof. unfold _resolve_user. by intros ->. Qed.

Lemma _resolve_channel_cached client self channel_id event :
  _channel_cache (snd (_resolve_channel client self channel_id event)) !! channel_id
    = Some (fst (_resolve_channel client self channel_id event)).
Proof.
  unfold _resolve_channel.
  destruct (_channel_cache self !! channel_id) eqn:H; [done|].
  destruct (is_dm_type _); simpl; apply lookup_insert_eq.
Qed.

Lemma _resolve_user_cached client self user_id :
  _user_cache (snd (_resolve_user client self user_id)) !! user_id
    = Some (fst (_resolve_user client self user_id)).
Proof.
  unfold _resolve_user.
  destruct (_user_cache self !! user_id) eqn:H; [done|].
  simpl. apply lookup_insert_eq.
Qed.

(** The names of a parsed message are in the caches afterwards, under the
    identifiers of its channel and of its sender, and stay the names of
    these identifiers: resolving them again gives the same names and
    changes nothing, whatever the client would answer. *)
Theorem resolved_names_are_cached (client : SlackClient)
    (listener listener' : SlackListener) (event : gmap string string)
    (msg : SlackMessage) :
  parse_event client listener event = (Some msg, listener') ->
  _channel_cache listener' !! channel_id msg = Some (channel msg) /\
  _user_cache listener' !! sender_id msg = Some (sender msg) /\
  (forall client' event',
     _resolve_channel client' listener' (channel_id msg) event' =
       (channel msg, listener')) /\
  (forall client',
     _resolve_user client' listener' (sender_id msg) = (sender msg, listener')).
Proof.
  intros H.
  apply parse_event_inv in H
    as [(_ & ? & _)|[(id & _ & _ & ? & _)|(id & _ & _ & H)]]; [done | done|].
  cbv zeta in H.
  destruct H as [(? & _)|(cid & sid & _ & _ & _ & _ & [= ->] & ->)]; [done|].
  simpl.
  set (seen := set_seen_events _ listener).
  assert (Hc : _channel_cache
                 (snd (_resolve_user client (snd (_resolve_channel client seen cid event)) sid))
                 !! cid = Some (fst (_resolve_channel client seen cid event))).
  { pose proof (_resolve_user_frame client
                  (snd (_resolve_channel client seen cid event)) sid) as (_ & _ & ->).
    apply _resolve_channel_cached. }
  pose proof (_resolve_user_cached client
                (snd (_resolve_channel client seen cid event)) sid) as Hu.
  split; [done | split; [done | split]].
  - intros client' event'. by apply _resolve_channel_hit.
  - intros client'. by apply _resolve_user_hit.
Qed.

Lemma resolved_names_are_cached_witness :
  _channel_cache (snd (parse_event make_client make_listener make_event)) !! "C_CHAN_1"
    = Some "general" /\
  _user_cache (snd (parse_event make_client make_listener make_event)) !! "U_ALICE"
    = Some "Alice" /\
  (forall client' event',
     _resolve_channel client' (snd (parse_event make_client make_listener make_event))
       "C_CHAN_1" event' =
       ("general", snd (parse_event make_client make_listener make_event))) /\
  (forall client',
     _resolve_user client' (snd (parse_event make_client make_listener make_event))
       "U_ALICE" =
       ("Alice", snd (parse_event make_client make_listener make_event))).
Proof.
  exact (resolved_names_are_cached make_client make_listener _ make_event _ eq_refl).
Defined.

(** The name of a channel that is not in the cache: "DM" for a direct or
    group conversation, without asking the client; otherwise the name the
    client gives, or the channel identifier when the call fails or the
    answer lacks the name.  Whichever it is, it is cached: a failed
    lookup is never tried again. *)
Theorem channel_name_resolution (client : SlackClient) (listener : SlackListener)
    (channel_id : string) (event : gmap string string) :
  _channel_cache listener !! channel_id = None ->
  (is_dm_type (default EmptyString (event !! "channel_type")) = true ->
     fst (_resolve_channel client listener channel_id event) = "DM") /\
  (is_dm_type (default EmptyString (event !! "channel_type")) = false ->
     forall name, conversations_info client channel_id = Returns (Some name) ->
       fst (_resolve_channel client listener channel_id event) = name) /\
  (is_dm_type (default EmptyString (event !! "channel_type")) = false ->
     (forall name, conversations_info client channel_id <> Returns (Some name)) ->
     fst (_resolve_channel client listener channel_id event) = channel_id) /\
  (forall client' event',
     _resolve_channel client' (snd (_resolve_channel client listener channel_id event))
       channel_id event' =
     (fst (_resolve_channel client listener channel_id event),
      snd (_resolve_channel client listener channel_id event))).
Proof.
  intros Hmiss. split; [|split; [|split]].
  - intros Hdm. unfold _resolve_channel. by rewrite Hmiss, Hdm.
  - intros Hdm name Hinfo. unfold _resolve_channel. by rewrite Hmiss, Hdm, Hinfo.
  - intros Hdm Hinfo. unfold _resolve_channel. rewrite Hmiss, Hdm.
    destruct (conversations_info client channel_id) as [[name|]|e] eqn:H; try done.
    by destruct (Hinfo name).
  - intros client' event'. apply _resolve_channel_hit, _resolve_channel_cached.
Qed.

Lemma channel_name_resolution_witness :
  fst (_resolve_channel failing_client make_listener "C_CHAN_1" make_event) = "C_CHAN_1" /\
  _resolve_channel make_client
    (snd (_resolve_channel failing_client make_listener "C_CHAN_1" make_event))
    "C_CHAN_1" make_event =
  ("C_CHAN_1", snd (_resolve_channel failing_client make_listener "C_CHAN_1" make_event)).
Proof.
  destruct (channel_name_resolution failing_client make_listener "C_CHAN_1" make_event
              eq_refl) as (_ & _ & Hfail & Hcached).
  split; [by apply Hfail | apply Hcached].
Defined.

(** The name of a user that is not in the cache: the first that is not
    empty of the profile's display name, the profile's real name and the
    user's real name; the user identifier when they are all empty or
    missing, or when the call fails.  The name of a user with a non-empty
    identifier is therefore never empty; and it is cached, so a failed
    lookup is never tried again. *)
Theorem user_name_resolution (client : SlackClient) (listener : SlackListener)
    (user_id : string) :
  _user_cache listener !! user_id = None ->
  (user_id <> EmptyString ->
     fst (_resolve_user client listener user_id) <> EmptyString) /\
  (forall user,
     users_info client user_id = Returns (Some user) ->
     let profile :=
       default {| profile_display_name := None; profile_real_name := None |}
         (user_profile user) in
     let name := fst (_resolve_user client listener user_id) in
     (truthy (profile_display_name profile) = true ->
        profile_display_name profile = Some name) /\
     (truthy (profile_display_name profile) = false ->
      truthy (profile_real_name profile) = true ->
        profile_real_name profile = Some name) /\
     (truthy (profile_display_name profile) = false ->
      truthy (profile_real_name profile) = false ->
      truthy (user_real_name user) = true ->
        user_real_name user = Some name) /\
     (truthy (profile_display_name profile) = false ->
      truthy (profile_real_name profile) = false ->
      truthy (user_real_name user) = false ->
        name = user_id)) /\
  ((forall user, users_info client user_id <> Returns (Some user)) ->
     fst (_resolve_user client listener user_id) = user_id) /\
  (forall client',
     _resolve_user client' (snd (_resolve_user client listener user_id)) user_id =
     (fst (_resolve_user client listener user_id),
      snd (_resolve_user client listener user_id))).
Proof.
  intros Hmiss.
  assert (Hor : forall v fallback, fallback <> EmptyString ->
            or_else v fallback <> EmptyString).
  { intros [[|c s]|] fallback Hf; simpl; done. }
  split; [|split; [|split]].
  - intros Hid. unfold _resolve_user. rewrite Hmiss.
    destruct (users_info client user_id) as [[user|]|e]; simpl; try done.
    by repeat apply Hor.
  - intros user Hinfo. cbv zeta. unfold _resolve_user. rewrite Hmiss, Hinfo. simpl.
    destruct (default _ (user_profile user)) as [[[|c1 s1]|] [[|c2 s2]|]];
      destruct (user_real_name user) as [[|c3 s3]|]; simpl;
      repeat split; intros; done.
  - intros Hinfo. unfold _resolve_user. rewrite Hmiss.
    destruct (users_info client user_id) as [[user|]|e] eqn:H; try done.
    by destruct (Hinfo user).
  - intros client'. apply _resolve_user_hit, _resolve_user_cached.
Qed.

Lemma user_name_resolution_witness :
  fst (_resolve_user make_client make_listener "U_ALICE") <> EmptyString /\
  fst (_resolve_user make_client make_listener "U_ALICE") = "Alice" /\
  _resolve_user failing_client
    (snd (_resolve_user make_client make_listener "U_ALICE")) "U_ALICE" =
  ("Alice", snd (_resolve_user make_client make_listener "U_ALICE")).
Proof.
  destruct (user_name_resolution make_client make_listener "U_ALICE" eq_refl)
    as (Hne & _ & _ & Hcached).
  split; [by apply Hne | split; [reflexivity | apply Hcached]].
Defined.

(** ** The listener and the pipeline together *)

Lemma parse_event_accepts client self event event_id channel_id sender_id :
  event_id_of event = Some event_id ->
  event_id ∉ _seen_events self ->
  ignored_subtype event = false ->
  event !! "channel" = Some channel_id -> channel_id <> EmptyString ->
  sender_id_of event = Some sender_id ->
  exists channel_name sender_name self',
    parse_event client self event =
      (Some (build_message (_bot_user_id self) event channel_name channel_id
               sender_name sender_id), self').
Proof.
  intros Hid Hfresh Hsub Hch Hne Hsid.
  destruct (parse_event client self event) as [r self'] eqn:H.
  apply parse_event_inv in H
    as [(? & _)|[(id & ? & ? & _)|(id & ? & _ & H)]]; [congruence | congruence|].
  cbv zeta in H.
  destruct H as [(_ & _ & [?|[Hc|?]])|(cid & sid & _ & ? & _ & ? & -> & ->)];
    try congruence.
  - rewrite Hch in Hc. by destruct channel_id.
  - assert (cid = channel_id) as -> by congruence.
    assert (sid = sender_id) as -> by congruence. eauto.
Qed.

(** A message of the bot itself never notifies under a "self" rule of
    SKIP: an event whose user is the bot's own identifier goes through
    the listener and is skipped by the filter, whatever its text, its
    channel, its flags and the answers of the client and of the
    classifier. *)
Theorem own_messages_never_notify (env : Env) (client : SlackClient)
    (listener : SlackListener) (event : gmap string string) (config : Config)
    (event_id channel_id : string) :
  event_id_of event = Some event_id ->
  event_id ∉ _seen_events listener ->
  ignored_subtype event = false ->
  event !! "channel" = Some channel_id -> channel_id <> EmptyString ->
  event !! "user" = Some (_bot_user_id listener) ->
  _bot_user_id listener <> EmptyString ->
  rules config !! "self" = Some SKIP ->
  fst (handle_event env client listener event config (_bot_user_id listener))
    = Returns [].
Proof.
  intros Hid Hfresh Hsub Hch Hne Huser Hbot Hrule.
  assert (Hsid : sender_id_of event = Some (_bot_user_id listener)).
  { unfold sender_id_of. rewrite Huser. by destruct (_bot_user_id listener). }
  destruct (parse_event_accepts client listener event _ _ _ Hid Hfresh Hsub Hch Hne Hsid)
    as (cn & sn & self' & Hparse).
  unfold handle_event. rewrite Hparse. simpl. unfold handle_message.
  rewrite pre_filter_self by done.
  by rewrite (rules_getitem_Some _ _ _ Hrule).
Qed.

Lemma own_messages_never_notify_witness :
  fst (handle_event Fragment.env_refused make_client make_listener
         (<["user" := "U_BOT_123"]> (<["text" := "production down <@U_BOT_123>"]> make_event))
         default_config (_bot_user_id make_listener))
    = Returns [].
Proof.
  apply (own_messages_never_notify Fragment.env_refused make_client make_listener
           (<["user" := "U_BOT_123"]> (<["text" := "production down <@U_BOT_123>"]> make_event))
           default_config "1700000000.000001" "C_CHAN_1");
    try reflexivity; try discriminate.
  apply not_elem_of_nil.
Defined.

(** A mention of the bot by someone else is notified under a "mentions"
    rule of FORCE_NOTIFY: when no keyword entry matches its text, an event
    from a user who is not the bot and not a bot, whose text contains the
    bot's mention, sends exactly one notification, at the level "normal",
    whose reason names the rule; the classifier is not asked. *)
Theorem mention_is_force_notified (env : Env) (client : SlackClient)
    (listener : SlackListener) (event : gmap string string) (config : Config)
    (event_id channel_id user_id : string) :
  event_id_of event = Some event_id ->
  event_id ∉ _seen_events listener ->
  ignored_subtype event = false ->
  event !! "channel" = Some channel_id -> channel_id <> EmptyString ->
  event !! "user" = Some user_id -> user_id <> EmptyString ->
  user_id <> _bot_user_id listener ->
  from_bot event = false ->
  Str.contains ("<@" +:+ _bot_user_id listener +:+ ">")
    (default EmptyString (event !! "text")) = true ->
  Forall (no_match env (default EmptyString (event !! "text"))) (keywords config) ->
  rules config !! "mentions" = Some FORCE_NOTIFY ->
  exists cmd,
    fst (handle_event env client listener event config (_bot_user_id listener))
      = Returns [cmd] /\
    cmd !! 1%nat = Some "--urgency=normal" /\
    exists shown,
      cmd !! 4%nat =
        Some (shown +:+ Str.nl +:+ Str.nl +:+ "Matched rule: mentions").
Proof.
  intros Hid Hfresh Hsub Hch Hne Huser Hune Hother Hbot Hmention Hkw Hrule.
  assert (Hsid : sender_id_of event = Some user_id).
  { unfold sender_id_of. rewrite Huser. by destruct user_id. }
  destruct (parse_event_accepts client listener event _ _ _ Hid Hfresh Hsub Hch Hne Hsid)
    as (cn & sn & self' & Hparse).
  set (msg := build_message (_bot_user_id listener) event cn channel_id sn user_id)
    in *.
  assert (Hpre : pre_filter env msg config (_bot_user_id listener) =
                 Returns {| action := FORCE_NOTIFY; rule := "mentions" |}).
  { unfold pre_filter. simpl.
    rewrite bool_decide_false, Hbot by done.
    rewrite (keyword_loop_no_match _ _ _ Hkw). simpl.
    rewrite Hmention. by rewrite (rules_getitem_Some _ _ _ Hrule). }
  exists (notify msg "Matched rule: mentions" None config).
  split; [|split; [reflexivity|]].
  - unfold handle_event. rewrite Hparse. simpl. unfold handle_message.
    by rewrite Hpre.
  - by exists (Str.take 200 (text msg)).
Qed.

Lemma mention_is_force_notified_witness :
  exists cmd,
    fst (handle_event Fragment.env_http_500 failing_client make_listener
           (<["text" := "<@U_BOT_123> can you look at this?"]> make_event)
           default_config (_bot_user_id make_listener))
      = Returns [cmd] /\
    cmd !! 1%nat = Some "--urgency=normal" /\
    exists shown,
      cmd !! 4%nat =
        Some (shown +:+ Str.nl +:+ Str.nl +:+ "Matched rule: mentions").
Proof.
  apply (mention_is_force_notified Fragment.env_http_500 failing_client make_listener
           (<["text" := "<@U_BOT_123> can you look at this?"]> make_event)
           default_config "1700000000.000001" "C_CHAN_1" "U_ALICE");
    try reflexivity; try discriminate.
  - apply not_elem_of_nil.
  - constructor.
Defined.
